(** * spark-partition-server: the coordinator, the partition server and the cluster

    A shallow embedding of [coordinator.py], [thread_utils.py],
    [partition_server.py] and [cluster.py].  Every Python method becomes a
    function from the object's fields (a record) to an outcome, the new
    fields and the list of actions the method performed on the outside
    world, in program order.  What the outside world answers (the network,
    the operating system, the Spark context) is an explicit argument. *)

From stdpp Require Import gmap strings pretty list.

Open Scope Z_scope.

(** ** Python values shared by the three classes *)

(** The exceptions that the modelled code can raise or let through. *)
Inductive exn :=
  | AttributeError
  | TypeError
  | NotImplementedError
  | ConnectionError
  | OtherError (name : string).

(** How a call ends: it returns, an exception leaves it, or it loops for
    ever (only the barrier of [Cluster.start] can). *)
Inductive outcome (A : Type) :=
  | Returned (a : A)
  | Raised (e : exn)
  | Hangs.
Arguments Returned {A} a.
Arguments Raised {A} e.
Arguments Hangs {A}.

(** [requests.post(url, ...)]: either some HTTP response comes back (of any
    status; [requests] does not raise on 4xx or 5xx), or the call raises. *)
Inductive post_result :=
  | Responded (status : Z)
  | Unreachable (e : exn).

(** Truth value of [x] in [if x] for [x] a string or [None]. *)
Definition truthy_str (x : option string) : bool :=
  match x with
  | Some s => negb (String.eqb s "")
  | None => false
  end.

(** Truth value of [x] in [if x] for [x] an integer or [None]. *)
Definition truthy_int (x : option Z) : bool :=
  match x with
  | Some n => negb (n =? 0)
  | None => false
  end.

(** ['%d' % n] *)
Definition fmt_d (n : Z) : string := pretty n.

(** The JSON object a partition server posts to [/register]. *)
Module Json.
Record registration := Registration {
  partition : Z;
  host : string;
  port : Z
}.
End Json.

(** ['http://%s:%d' % (host, port)] *)
Definition http_url (h : string) (p : Z) : string :=
  "http://" +:+ h +:+ ":" +:+ fmt_d p.

(** ['%s?token=%s' % (url, token)] when the token is truthy. *)
Definition with_token (url : string) (tok : option string) : string :=
  match tok with
  | Some t => if truthy_str tok then url +:+ "?token=" +:+ t else url
  | None => url
  end.

(** A POST to a [/control/shutdown] route: the [token] query parameter, if
    any, and whether [request.environ] holds ['werkzeug.server.shutdown']. *)
Module Control.
Record request := Request {
  arg_token : option string;
  werkzeug : bool
}.

(** What such a route does: the observer is called, the server is told to
    stop. *)
Inductive effect := CallShutdownCallback | StopServer.

(** What it answers: a bare status or a text (with status 200). *)
Inductive answer := Status (code : Z) | Text (body : string).
End Control.

(** ** coordinator.py (with the fields inherited from ServerThread) *)
Module Coordinator.

(** Observers are opaque functions of the caller; the model names them. *)
Definition callback := nat.

Record t := Make {
  await_partitions : option Z;
  verbose : bool;
  hosts : gmap Z (string * Z);
  token : option string;
  register_callback : option callback;
  full_cluster : option bool;
  (* ServerThread *)
  port : option Z;
  host : string;
  daemon : bool
}.

Definition set_hosts (h : gmap Z (string * Z)) (s : t) : t :=
  Make (await_partitions s) (verbose s) h (token s) (register_callback s)
       (full_cluster s) (port s) (host s) (daemon s).

Definition set_full_cluster (f : option bool) (s : t) : t :=
  Make (await_partitions s) (verbose s) (hosts s) (token s)
       (register_callback s) f (port s) (host s) (daemon s).

Definition set_port (p : option Z) (s : t) : t :=
  Make (await_partitions s) (verbose s) (hosts s) (token s)
       (register_callback s) (full_cluster s) p (host s) (daemon s).

Definition set_daemon (d : bool) (s : t) : t :=
  Make (await_partitions s) (verbose s) (hosts s) (token s)
       (register_callback s) (full_cluster s) (port s) (host s) d.

(** [set_register_callback] *)
Definition set_register_callback (fn : callback) (s : t) : t :=
  Make (await_partitions s) (verbose s) (hosts s) (token s) (Some fn)
       (full_cluster s) (port s) (host s) (daemon s).

(** The dict handed to the registration observer. *)
Record event := Event {
  partition_ind : Z;
  old_entry : option (string * Z);
  new_entry : string * Z;
  ev_full_cluster : option bool
}.

(** What a method does to the outside, in program order.  [Callback]
    records the fields of the coordinator at the moment the observer is
    called: that is what the observer can read. *)
Inductive effect :=
  | Print (line : string)
  | Callback (fn : callback) (ev : event) (at_call : t)
  | Post (url : string).

(** [False if await_partitions else None] *)
Definition initial_full_cluster (await : option Z) : option bool :=
  if truthy_int await then Some false else None.

(** [__init__]; [hostname] is what [get_host()] answers. *)
Definition init (hostname : string) (await : option Z) (verb : bool)
    (tok : option string) : t :=
  {| await_partitions := await;
     verbose := verb;
     hosts := ∅;
     token := tok;
     register_callback := None;
     full_cluster := initial_full_cluster await;
     port := None;
     host := hostname;
     daemon := false |}.

(** A POST to [/register]: the [token] query parameter, if any, and the
    body, [None] when [get_json()] or one of the three subscripts fails. *)
Record request := Request {
  arg_token : option string;
  body : option Json.registration
}.

(** The status of the answer; [RError] is the error status Flask gives
    when the handler raises while reading the body. *)
Inductive response := R200 | R403 | RError.

(** [self.token and self.token != request.args.get('token')] *)
Definition token_mismatch (s : t) (req : request) : bool :=
  truthy_str (token s) && negb (bool_decide (token s = arg_token req)).

(** [print_hosts]: one line per entry, in the dict's iteration order. *)
Definition print_hosts (s : t) : list effect :=
  (λ kd, Print (fmt_d kd.1 +:+ " - " +:+ http_url kd.2.1 kd.2.2 +:+ "/"))
    <$> map_to_list (hosts s).

(** The [/register] route. *)
Definition register (req : request) (s : t) : response * t * list effect :=
  if token_mismatch s req then (R403, s, [])
  else
    match body req with
    | None => (RError, s, [])
    | Some j =>
      let partition := Json.partition j in
      let host := Json.host j in
      let port := Json.port j in
      let old_entry := hosts s !! partition in
      let s1 := set_hosts (<[partition := (host, port)]> (hosts s)) s in
      let out1 :=
        if verbose s1
        then [Print ("Registered partition " +:+ fmt_d partition +:+
                     " at " +:+ http_url host port)]
        else [] in
      let full :=
        bool_decide (await_partitions s1 = Some (Z.of_nat (size (hosts s1)))) in
      let s2 := if full then set_full_cluster (Some true) s1 else s1 in
      let out2 :=
        if full && verbose s2
        then Print ("All " +:+ default "None" (fmt_d <$> await_partitions s2)
                    +:+ " expected partitions have registered")
             :: print_hosts s2
        else [] in
      let out3 :=
        match register_callback s2 with
        | Some fn =>
          [Callback fn {| partition_ind := partition;
                          old_entry := old_entry;
                          new_entry := (host, port);
                          ev_full_cluster := full_cluster s2 |} s2]
        | None => []
        end in
      (R200, s2, out1 ++ out2 ++ out3)
    end.

(** The JSON answer of the [/status] route. *)
Record status_json := Status {
  expected_partitions : option Z;
  current_partitions : nat;
  st_full_cluster : option bool
}.

Definition status (s : t) : status_json :=
  {| expected_partitions := await_partitions s;
     current_partitions := size (hosts s);
     st_full_cluster := full_cluster s |}.

(** The JSON answer of the [/hosts] route. *)
Definition get_hosts (s : t) : option Z * option bool * gmap Z (string * Z) :=
  (await_partitions s, full_cluster s, hosts s).

(** The url [shutdown_host] posts to for an entry of the registry. *)
Definition shutdown_url (tok : option string) (hp : string * Z) : string :=
  with_token (http_url hp.1 hp.2 +:+ "/control/shutdown") tok.

(** [shutdown_host]; [reply] is what [requests.post] does with the url. *)
Definition shutdown_host (reply : string → post_result) (ind : Z) (s : t)
    : outcome unit * t * list effect :=
  match hosts s !! ind with
  | Some hp =>
    let url := shutdown_url (token s) hp in
    match reply url with
    | Responded _ => (Returned (), set_hosts (delete ind (hosts s)) s, [Post url])
    | Unreachable e => (Raised e, s, [Post url])
    end
  | None => (Returned (), s, [])
  end.

(** The threads of [shutdown_hosts].  Each thread runs [shutdown_host] on
    its own key and touches no other entry, so the threads commute and a
    run of all of them is a run one after the other in some order
    [order].  An exception inside a thread ends that thread only. *)
Fixpoint run_threads (net : Z → string → post_result) (order : list Z)
    (s : t) : t * list effect :=
  match order with
  | [] => (s, [])
  | k :: rest =>
    let '(_, s1, out1) := shutdown_host (net k) k s in
    let '(s2, out2) := run_threads net rest s1 in
    (s2, out1 ++ out2)
  end.


(** [shutdown_hosts]: one thread per key of the copy, all joined, then the
    reset.  [order] is the order in which the threads get to run; it is a
    rearrangement of [snapshot s]. *)
Definition shutdown_hosts (net : Z → string → post_result) (order : list Z)
    (s : t) : t * list effect :=
  let '(s1, out) := run_threads net order s in
  let s2 := set_hosts ∅ s1 in
  (set_full_cluster (initial_full_cluster (await_partitions s2)) s2, out).


(** ServerThread.[get_url]; [host] is never [None] here. *)
Definition get_url (s : t) : option string :=
  match port s with
  | None => None
  | Some p => Some (http_url (host s) p)
  end.

(** ServerThread.[shutdown] *)
Definition shutdown (reply : string → post_result) (s : t)
    : outcome unit * list effect :=
  match port s with
  | None => (Raised TypeError, [])
  | Some p =>
    let url := "http://0.0.0.0:" +:+ fmt_d p +:+ "/control/shutdown" in
    match reply url with
    | Responded _ => (Returned (), [Post url])
    | Unreachable e => (Raised e, [Post url])
    end
  end.

(** A run of [/register] requests served one after the other. *)
Fixpoint serve (reqs : list request) (s : t) : t :=
  match reqs with
  | [] => s
  | r :: rest => serve rest (register r s).1.2
  end.

(** The answers of the same run. *)
Fixpoint answers (reqs : list request) (s : t) : list response :=
  match reqs with
  | [] => []
  | r :: rest => (register r s).1.1 :: answers rest (register r s).1.2
  end.

(** The requests that go out for the keys [order] when each key is looked
    up in the registry [h]. *)
Definition requests_for (tok : option string) (h : gmap Z (string * Z))
    (order : list Z) : list effect :=
  flat_map (λ k, match h !! k with
                 | Some hp => [Post (shutdown_url tok hp)]
                 | None => []
                 end) order.

(** The partition indices in the bodies of a run of requests. *)
Definition partitions (reqs : list request) : list Z :=
  omap (λ r, Json.partition <$> body r) reqs.

(** Whether the token test of [/register] lets a request by and its body
    can be read. *)
Definition accepts (s : t) (req : request) : bool :=
  negb (token_mismatch s req) && bool_decide (is_Some (body req)).

(** The registrations of a run that [s] accepts, in order. *)
Definition accepted (s : t) (reqs : list request) : list Json.registration :=
  omap body (filter (λ r, accepts s r = true) reqs).

(** The [/control/shutdown] route that ServerThread.[__init__] adds to the
    app of the coordinator. *)
Definition shutdown_server (req : Control.request) (s : t)
    : outcome Control.answer * list Control.effect :=
  if Control.werkzeug req
  then (Returned (Control.Text "Server shutting down..."), [Control.StopServer])
  else (Raised (OtherError "RuntimeError"), []).

(** Two coordinators agree on the four fields that [/register] reads. *)
Definition same_registry (s1 s2 : t) : Prop :=
  await_partitions s1 = await_partitions s2
  ∧ token s1 = token s2
  ∧ hosts s1 = hosts s2
  ∧ full_cluster s1 = full_cluster s2.

(** What can happen to a coordinator: a request to [/register], a call of
    [shutdown_host], a call of [shutdown_hosts]. *)
Inductive op :=
  | Register (req : request)
  | ShutdownHost (reply : string → post_result) (ind : Z)
  | ShutdownHosts (net : Z → string → post_result) (order : list Z).

Definition apply_op (o : op) (s : t) : t :=
  match o with
  | Register req => (register req s).1.2
  | ShutdownHost reply ind => (shutdown_host reply ind s).1.2
  | ShutdownHosts net order => (shutdown_hosts net order s).1
  end.

Definition run_ops (ops : list op) (s : t) : t :=
  foldl (λ s o, apply_op o s) s ops.

End Coordinator.


(** ** partition_server.py *)
Module PartitionServer.

(** [PartitionServer] itself, whose [_launch_server] is abstract, or
    [FlaskPartitionServer]. *)
Inductive kind := Abstract | Flask.

(** Code supplied by the user (an init function, a shutdown callback) is
    opaque; the model keeps what calling it raises, if anything. *)
Definition hook := option exn.

Record t := Make {
  cls : kind;
  port : option Z;
  token : option string;
  (* [None]: [set_coordinator_url] was never called, the attribute is missing *)
  coordinator_url : option string;
  partition_ind : option Z;
  host : option string;
  (* FlaskPartitionServer *)
  blueprint : bool;
  _init_partition_fn : option hook;
  (* a subclass may define a method [init_partition] *)
  init_partition : option hook;
  shutdown_callback : option hook
}.

(** [__init__] of either class, with the default [port=None]. *)
Definition init (c : kind) (p : option Z) (bp : bool) (fn : option hook)
    (meth : option hook) : t :=
  {| cls := c; port := p; token := None; coordinator_url := None;
     partition_ind := None; host := None; blueprint := bp;
     _init_partition_fn := fn; init_partition := meth;
     shutdown_callback := None |}.

Definition set_coordinator_url (url : string) (w : t) : t :=
  Make (cls w) (port w) (token w) (Some url) (partition_ind w) (host w)
       (blueprint w) (_init_partition_fn w) (init_partition w)
       (shutdown_callback w).

Definition set_token (tok : option string) (w : t) : t :=
  Make (cls w) (port w) tok (coordinator_url w) (partition_ind w) (host w)
       (blueprint w) (_init_partition_fn w) (init_partition w)
       (shutdown_callback w).

(** The first lines of [__call__]: the partition, the host and the port. *)
Definition bind (ind : Z) (h : string) (open_port : Z) (w : t) : t :=
  Make (cls w) (Some (default open_port (port w))) (token w)
       (coordinator_url w) (Some ind) (Some h) (blueprint w)
       (_init_partition_fn w) (init_partition w) (shutdown_callback w).

(** What the worker does to the outside, in program order.  [Serve] is
    [app.run]: the worker is serving from that point on. *)
Inductive effect :=
  | CreateApp (name : string)
  | ConfigUpdate
  | InitPartition
  | RegisterBlueprint
  | AddRoute (rule : string)
  | Post (url : string) (json : Json.registration)
  | Serve (port : Z).

(** What the executor's operating system and network answer. *)
Record world := World {
  get_host : string;
  get_open_port : Z;
  post : string → Json.registration → post_result;
  (* what [app.run] raises, if anything, instead of returning after the
     shutdown request *)
  app_run : option exn
}.

(** [_register].  [__call__] has set the partition, the host and the port
    by the time it runs; the response of the coordinator is not looked at. *)
Definition _register (env : world) (w : t) : outcome unit * list effect :=
  match coordinator_url w with
  | None => (Raised AttributeError, [])
  | Some base =>
    let url := with_token (base +:+ "/register") (token w) in
    match partition_ind w, host w, port w with
    | Some ind, Some h, Some p =>
      let json := {| Json.partition := ind; Json.host := h; Json.port := p |} in
      match post env url json with
      | Responded _ => (Returned (), [Post url json])
      | Unreachable e => (Raised e, [Post url json])
      end
    | _, _, _ => (Raised AttributeError, [])
    end
  end.

(** FlaskPartitionServer.[_init_partition] *)
Definition _init_partition (w : t) : outcome unit * list effect :=
  match _init_partition_fn w with
  | Some fn =>
    (match fn with Some e => Raised e | None => Returned () end, [InitPartition])
  | None =>
    match init_partition w with
    | Some meth =>
      (match meth with
       | Some AttributeError => Returned ()
       | Some e => Raised e
       | None => Returned ()
       end, [InitPartition])
    | None => (Returned (), [])
    end
  end.

(** [_launch_server], by class. *)
Definition _launch_server (env : world) (w : t) : outcome unit * list effect :=
  match cls w with
  | Abstract => (Raised NotImplementedError, [])
  | Flask =>
    let out1 :=
      [CreateApp ("FlaskPartitionServer" +:+ fmt_d (default 0 (partition_ind w)));
       ConfigUpdate] in
    match _init_partition w with
    | (Returned _, out2) =>
      let out3 := if blueprint w then [RegisterBlueprint] else [] in
      let out4 := [AddRoute "/control/shutdown"; AddRoute "/control/ping"] in
      match _register env w with
      | (Returned _, out5) =>
        let out6 := [Serve (default 0 (port w))] in
        (match app_run env with Some e => Raised e | None => Returned () end,
         out1 ++ out2 ++ out3 ++ out4 ++ out5 ++ out6)
      | (Raised e, out5) => (Raised e, out1 ++ out2 ++ out3 ++ out4 ++ out5)
      | (Hangs, out5) => (Hangs, out1 ++ out2 ++ out3 ++ out4 ++ out5)
      end
    | (Raised e, out2) => (Raised e, out1 ++ out2)
    | (Hangs, out2) => (Hangs, out1 ++ out2)
    end
  end.

(** [_build_result]: the empty list. *)
Definition _build_result (w : t) : list Z := [].

(** [__call__(ind, itr)], the entry point Spark invokes on a partition. *)
Definition __call__ (env : world) (ind : Z) (w : t)
    : outcome (list Z) * t * list effect :=
  let w1 := bind ind (get_host env) (get_open_port env) w in
  match _launch_server env w1 with
  | (Returned _, out) => (Returned (_build_result w1), w1, out)
  | (Raised e, out) => (Raised e, w1, out)
  | (Hangs, out) => (Hangs, w1, out)
  end.

(** The worker is serving somewhere in a trace. *)
Definition serving (out : list effect) : Prop := ∃ p, Serve p ∈ out.

(** [set_shutdown_callback] *)
Definition set_shutdown_callback (fn : hook) (w : t) : t :=
  Make (cls w) (port w) (token w) (coordinator_url w) (partition_ind w) (host w)
       (blueprint w) (_init_partition_fn w) (init_partition w) (Some fn).

(** The [/control/shutdown] route of a FlaskPartitionServer. *)
Definition shutdown_server (req : Control.request) (w : t)
    : outcome Control.answer * list Control.effect :=
  if truthy_str (token w) && negb (bool_decide (token w = Control.arg_token req))
  then (Returned (Control.Status 403), [])
  else
    match shutdown_callback w with
    | Some (Some e) => (Raised e, [Control.CallShutdownCallback])
    | cb =>
      let out := match cb with Some _ => [Control.CallShutdownCallback] | None => [] end in
      if Control.werkzeug req
      then (Returned (Control.Text "Server shutting down..."),
            out ++ [Control.StopServer])
      else (Raised (OtherError "RuntimeError"), out)
    end.

(** The [/control/ping] route. *)
Definition ping (w : t) : Control.answer := Control.Status 200.

End PartitionServer.


(** ** cluster.py (with MapPartitionsThread from thread_utils.py) *)
Module Cluster.

(** What the cluster reads from the RDD and from the Spark configuration. *)
Record rdd_t := Rdd {
  getNumPartitions : Z;
  rdd_id : Z
}.

Record conf_t := Conf {
  (* [int(conf.get(key))]; [None] when the key is missing *)
  executor_instances : option Z;
  executor_cores : option Z
}.

(** MapPartitionsThread *)
Record map_job_t := MapJob {
  mj_rdd : rdd_t;
  mj_partition_server : PartitionServer.t;
  mj_cache_result : bool;
  mj_daemon : bool
}.

Record t := Make {
  sc : conf_t;
  rdd : rdd_t;
  partition_server : PartitionServer.t;
  cache_result : bool;
  verbose : bool;
  coordinator : option Coordinator.t;
  _is_active : bool;
  token : option string;
  (* [None]: the attribute is missing until the first [start] *)
  map_job : option map_job_t
}.

(** [__init__]; [partition_server] is the one given or a fresh
    [FlaskPartitionServer()]. *)
Definition init (conf : conf_t) (r : rdd_t) (ps : option PartitionServer.t)
    (cache : bool) (verb : bool) : t :=
  {| sc := conf;
     rdd := r;
     partition_server :=
       default (PartitionServer.init PartitionServer.Flask None false None None) ps;
     cache_result := cache;
     verbose := verb;
     coordinator := None;
     _is_active := false;
     token := None;
     map_job := None |}.

Definition set_token (tok : option string) (c : t) : t :=
  Make (sc c) (rdd c) (partition_server c) (cache_result c) (verbose c)
       (coordinator c) (_is_active c) tok (map_job c).

Definition set_coordinator (co : option Coordinator.t) (c : t) : t :=
  Make (sc c) (rdd c) (partition_server c) (cache_result c) (verbose c)
       co (_is_active c) (token c) (map_job c).

Definition set_partition_server (ps : PartitionServer.t) (c : t) : t :=
  Make (sc c) (rdd c) ps (cache_result c) (verbose c)
       (coordinator c) (_is_active c) (token c) (map_job c).

Definition set_map_job (mj : option map_job_t) (c : t) : t :=
  Make (sc c) (rdd c) (partition_server c) (cache_result c) (verbose c)
       (coordinator c) (_is_active c) (token c) mj.

Definition set_is_active (b : bool) (c : t) : t :=
  Make (sc c) (rdd c) (partition_server c) (cache_result c) (verbose c)
       (coordinator c) b (token c) (map_job c).

(** [is_active] *)
Definition is_active (c : t) : bool := _is_active c.

(** [get_hosts]; a Coordinator object is always truthy. *)
Definition get_hosts (c : t) : option (gmap Z (string * Z)) :=
  match coordinator c with
  | Some co => Some (Coordinator.hosts co)
  | None => None
  end.

Inductive effect :=
  | Print (line : string)
  | StartCoordinator
  | StartMapJob
  | Sleep
  | Coord (e : Coordinator.effect).

(** What the driver's operating system, the coordinator thread and the
    partition servers do while [start] runs. *)
Record world := World {
  (* [os.urandom(10)], as bytes *)
  urandom : list Z;
  get_host : string;
  (* the port the coordinator thread picks in [run] *)
  get_open_port : Z;
  (* the [/register] requests the coordinator serves between two looks of
     the barrier at [full_cluster] *)
  arrivals : list (list Coordinator.request)
}.

Definition hex_digit (n : Z) : string :=
  match n with
  | 0 => "0" | 1 => "1" | 2 => "2" | 3 => "3" | 4 => "4" | 5 => "5"
  | 6 => "6" | 7 => "7" | 8 => "8" | 9 => "9" | 10 => "a" | 11 => "b"
  | 12 => "c" | 13 => "d" | 14 => "e" | _ => "f"
  end.

(** [binascii.hexlify] *)
Definition hexlify (bs : list Z) : string :=
  foldr (λ b acc, hex_digit (b `div` 16) +:+ hex_digit (b `mod` 16) +:+ acc) "" bs.

(** [while await_hosts and not self.coordinator.full_cluster: sleep(0.1)].
    When no further request arrives and the flag is not set the loop never
    ends. *)
Fixpoint barrier (await_hosts : bool) (arr : list (list Coordinator.request))
    (co : Coordinator.t) : outcome unit * Coordinator.t * list effect :=
  if await_hosts && negb (default false (Coordinator.full_cluster co)) then
    match arr with
    | [] => (Hangs, co, [])
    | batch :: rest =>
      let '(r, co1, out) := barrier await_hosts rest (Coordinator.serve batch co) in
      (r, co1, Sleep :: out)
    end
  else (Returned (), co, []).

(** [start] *)
Definition start (env : world) (await_hosts : bool) (c : t)
    : outcome unit * t * list effect :=
  if is_active c then (Returned (), c, [])
  else
    let tok := Some (hexlify (urandom env)) in
    let c1 := set_token tok c in
    let num_partitions := getNumPartitions (rdd c1) in
    match executor_instances (sc c1), executor_cores (sc c1) with
    | Some instances, Some cores =>
      let total_cores := instances * cores in
      let out1 :=
        if verbose c1
        then [Print ("Preparing partition servers for RDD " +:+ fmt_d (rdd_id (rdd c1))
                     +:+ " with " +:+ fmt_d num_partitions +:+ " partitions on "
                     +:+ fmt_d total_cores +:+ " cores")]
        else [] in
      let co :=
        Coordinator.set_daemon true
          (Coordinator.init (get_host env) (Some num_partitions) (verbose c1) tok) in
      (* the coordinator thread starts and picks its port in [run]; the
         loop on [get_url] goes on until the url is there *)
      let co := Coordinator.set_port (Some (get_open_port env)) co in
      match Coordinator.get_url co with
      | None => (Hangs, set_coordinator (Some co) c1, out1 ++ [StartCoordinator])
      | Some coordinator_url =>
        let ps :=
          PartitionServer.set_token tok
            (PartitionServer.set_coordinator_url coordinator_url (partition_server c1)) in
        let c2 := set_partition_server ps (set_coordinator (Some co) c1) in
        let mj := MapJob (rdd c2) (partition_server c2) (cache_result c2) true in
        let c3 := set_is_active true (set_map_job (Some mj) c2) in
        let '(r, co1, out2) := barrier await_hosts (arrivals env) co in
        (r, set_coordinator (Some co1) c3,
         out1 ++ [StartCoordinator; StartMapJob] ++ out2)
      end
    | _, _ => (Raised TypeError, c1, [])
    end.

(** [stop].  [net] and [order] are those of [Coordinator.shutdown_hosts],
    [reply] is what the coordinator's own shutdown route answers. *)
Definition stop (net : Z → string → post_result) (order : list Z)
    (reply : string → post_result) (c : t) : outcome unit * t * list effect :=
  match coordinator c with
  | None => (Raised AttributeError, c, [])
  | Some co =>
    let '(co1, out1) := Coordinator.shutdown_hosts net order co in
    let c1 := set_coordinator (Some co1) c in
    match Coordinator.shutdown reply co1 with
    | (Returned _, out2) => (Returned (), set_is_active false c1, Coord <$> (out1 ++ out2))
    | (Raised e, out2) => (Raised e, c1, Coord <$> (out1 ++ out2))
    | (Hangs, out2) => (Hangs, c1, Coord <$> (out1 ++ out2))
    end
  end.

(** [get_result_rdd]; [result] is the [result] attribute of the map job,
    [None] until its thread has assigned it. *)
Definition get_result_rdd {R : Type} (result : option R) (c : t)
    : outcome (option R) :=
  if cache_result c then
    match map_job c with
    | None => Raised AttributeError
    | Some _ => Returned result
    end
  else Returned None.

(** What can happen to a cluster: the driver calls [start] or [stop], or
    the coordinator thread serves some [/register] requests in between. *)
Inductive action :=
  | Start (env : world) (await_hosts : bool)
  | Stop (net : Z → string → post_result) (order : list Z)
         (reply : string → post_result)
  | Registrations (reqs : list Coordinator.request).

Definition act (a : action) (c : t) : t :=
  match a with
  | Start env await_hosts => (start env await_hosts c).1.2
  | Stop net order reply => (stop net order reply c).1.2
  | Registrations reqs =>
    match coordinator c with
    | Some co => set_coordinator (Some (Coordinator.serve reqs co)) c
    | None => c
    end
  end.

Definition run (acts : list action) (c : t) : t :=
  foldl (λ c a, act a c) c acts.

End Cluster.


(** * Properties *)

(** A trace written out in full holds no action of the constructor asked
    about. *)
Ltac absent_from_trace :=
  let H := fresh "H" in
  intros; intros H;
  repeat (apply elem_of_cons in H as [H|H]; [discriminate H|]);
  by apply elem_of_nil in H.

(** ** The [/register] route *)

Section Register.
Implicit Types (s : Coordinator.t) (req : Coordinator.request).

(** A request is either turned away at the token check, or fails on its
    body, or goes through; these are the three answers. *)
Lemma register_cases s req :
  (Coordinator.token_mismatch s req = true ∧
   Coordinator.register req s = (Coordinator.R403, s, []))
  ∨ (Coordinator.token_mismatch s req = false ∧ Coordinator.body req = None ∧
     Coordinator.register req s = (Coordinator.RError, s, []))
  ∨ (∃ j, Coordinator.token_mismatch s req = false ∧
          Coordinator.body req = Some j ∧
          (Coordinator.register req s).1.1 = Coordinator.R200).
Proof.
  unfold Coordinator.register.
  destruct (Coordinator.token_mismatch s req); [by left|right].
  destruct (Coordinator.body req) as [j|]; [right; by exists j|by left].
Qed.

(** The fields after a request that went through. *)
Lemma register_accepted s req j :
  Coordinator.token_mismatch s req = false →
  Coordinator.body req = Some j →
  let s' := (Coordinator.register req s).1.2 in
  let h' := <[Json.partition j := (Json.host j, Json.port j)]> (Coordinator.hosts s) in
  Coordinator.hosts s' = h'
  ∧ Coordinator.full_cluster s' =
      (if bool_decide (Coordinator.await_partitions s = Some (Z.of_nat (size h')))
       then Some true else Coordinator.full_cluster s)
  ∧ Coordinator.await_partitions s' = Coordinator.await_partitions s
  ∧ Coordinator.token s' = Coordinator.token s
  ∧ Coordinator.register_callback s' = Coordinator.register_callback s.
Proof.
  intros Hm Hb. unfold Coordinator.register. rewrite Hm, Hb. simpl.
  case_bool_decide; simpl; done.
Qed.

(** No request changes the expectation, the token or the observer. *)
Lemma register_frame s req :
  let s' := (Coordinator.register req s).1.2 in
  Coordinator.await_partitions s' = Coordinator.await_partitions s
  ∧ Coordinator.token s' = Coordinator.token s
  ∧ Coordinator.register_callback s' = Coordinator.register_callback s.
Proof.
  destruct (register_cases s req) as [[_ ->]|[(_ & _ & ->)|(j & Hm & Hb & _)]];
    [done|done|].
  by destruct (register_accepted s req j Hm Hb) as (_ & _ & ? & ? & ?).
Qed.

(** One request: the flag is set afterwards exactly when it was set before
    or the request went through and brought the count to the expectation. *)
Lemma register_full_cluster s req :
  let s' := (Coordinator.register req s).1.2 in
  Coordinator.full_cluster s' = Some true ↔
    Coordinator.full_cluster s = Some true
    ∨ ((Coordinator.register req s).1.1 = Coordinator.R200
       ∧ Coordinator.await_partitions s =
           Some (Z.of_nat (size (Coordinator.hosts s')))).
Proof.
  destruct (register_cases s req) as [[_ E]|[(_ & _ & E)|(j & Hm & Hb & E)]].
  - rewrite E. simpl. split; [by left|]. by intros [?|[? _]].
  - rewrite E. simpl. split; [by left|]. by intros [?|[? _]].
  - destruct (register_accepted s req j Hm Hb) as (Hh & Hf & _).
    simpl in *. rewrite Hf, Hh, E. case_bool_decide as Ha.
    + split; [|done]. intros _. right. by split.
    + split; [by left|]. by intros [?|[_ ?]].
Qed.

Lemma serve_app (pre post : list Coordinator.request) s :
  Coordinator.serve (pre ++ post) s = Coordinator.serve post (Coordinator.serve pre s).
Proof. revert s. induction pre as [|r pre IH]; intros s; [done|]. simpl. apply IH. Qed.

Lemma serve_await (reqs : list Coordinator.request) s :
  Coordinator.await_partitions (Coordinator.serve reqs s) = Coordinator.await_partitions s.
Proof.
  revert s. induction reqs as [|r reqs IH]; intros s; [done|].
  simpl. rewrite IH. apply register_frame.
Qed.

(** Once set, the flag stays set over any run of requests. *)
Lemma serve_full_cluster_stays (reqs : list Coordinator.request) s :
  Coordinator.full_cluster s = Some true →
  Coordinator.full_cluster (Coordinator.serve reqs s) = Some true.
Proof.
  revert s. induction reqs as [|r reqs IH]; intros s Hs; [done|].
  simpl. apply IH. apply register_full_cluster. by left.
Qed.

(** A run of requests from any state: the flag is set at the end exactly
    when it was set at the start or some request of the run went through and
    brought the count to the expectation. *)
Lemma serve_full_cluster (reqs : list Coordinator.request) s :
  Coordinator.full_cluster (Coordinator.serve reqs s) = Some true ↔
    Coordinator.full_cluster s = Some true
    ∨ ∃ pre r post, reqs = pre ++ r :: post
        ∧ (Coordinator.register r (Coordinator.serve pre s)).1.1 = Coordinator.R200
        ∧ Coordinator.await_partitions s =
            Some (Z.of_nat (size (Coordinator.hosts (Coordinator.serve (pre ++ [r]) s)))).
Proof.
  revert s. induction reqs as [|r reqs IH]; intros s; simpl.
  - split; [by left|]. intros [?|(pre & r & post & E & _)]; [done|].
    by destruct pre.
  - destruct (register_frame s r) as (Haw & _). simpl in Haw.
    rewrite IH, register_full_cluster, Haw. split.
    + intros [[?|[Hr Ha]]|(pre & r' & post & -> & Hr & Ha)].
      * by left.
      * right. exists [], r, reqs. by split_and!.
      * right. exists (r :: pre), r', post. by split_and!.
    + intros [?|(pre & r' & post & E & Hr & Ha)]; [left; by left|].
      destruct pre as [|r0 pre]; simpl in E; simplify_eq.
      * left. right. by split.
      * right. exists pre, r', post. by split_and!.
Qed.

(** When the expectation is [None] or 0 the flag stays [None]. *)
Lemma register_unset_stays s req :
  truthy_int (Coordinator.await_partitions s) = false →
  Coordinator.full_cluster s = None →
  Coordinator.full_cluster (Coordinator.register req s).1.2 = None.
Proof.
  intros Ht Hf.
  destruct (register_cases s req) as [[_ ->]|[(_ & _ & ->)|(j & Hm & Hb & _)]];
    [done|done|].
  destruct (register_accepted s req j Hm Hb) as (_ & -> & _).
  case_bool_decide as Ha; [|done]. rewrite Ha in Ht. simpl in Ht.
  apply negb_false_iff, Z.eqb_eq in Ht.
  assert (size (<[Json.partition j:=(Json.host j, Json.port j)]> (Coordinator.hosts s)) ≠ 0%nat);
    [|lia].
  apply map_size_non_empty_iff, insert_non_empty.
Qed.

Lemma serve_unset_stays (reqs : list Coordinator.request) s :
  truthy_int (Coordinator.await_partitions s) = false →
  Coordinator.full_cluster s = None →
  Coordinator.full_cluster (Coordinator.serve reqs s) = None.
Proof.
  revert s. induction reqs as [|r reqs IH]; intros s Ht Hf; [done|].
  simpl. apply IH.
  - by destruct (register_frame s r) as (-> & _).
  - by apply register_unset_stays.
Qed.

End Register.

(** C1.  Over any run of [/register] requests on a new coordinator,
    [full_cluster] is [True] at the end exactly when some request of the run
    went through and left as many entries in [hosts] as [await_partitions]
    asks for; with no expectation ([None]) it stays [None]; and once it is
    [True] after a part of the run it is [True] after all of it, however
    many more partitions register. *)
Theorem full_cluster_set_exactly_on_reaching_expectation
    (hostname : string) (await : option Z) (verb : bool) (tok : option string)
    (reqs : list Coordinator.request) :
  let s0 := Coordinator.init hostname await verb tok in
  (Coordinator.full_cluster (Coordinator.serve reqs s0) = Some true ↔
     ∃ pre r post, reqs = pre ++ r :: post
       ∧ (Coordinator.register r (Coordinator.serve pre s0)).1.1 = Coordinator.R200
       ∧ await = Some (Z.of_nat (size (Coordinator.hosts (Coordinator.serve (pre ++ [r]) s0)))))
  ∧ (await = None → Coordinator.full_cluster (Coordinator.serve reqs s0) = None)
  ∧ (∀ pre post, reqs = pre ++ post →
       Coordinator.full_cluster (Coordinator.serve pre s0) = Some true →
       Coordinator.full_cluster (Coordinator.serve reqs s0) = Some true).
Proof.
  intros s0. split; [|split].
  - rewrite serve_full_cluster. split; [|by right].
    intros [H|H]; [|done]. unfold s0, Coordinator.init, Coordinator.initial_full_cluster in H.
    simpl in H. by destruct (truthy_int await).
  - intros ->. by apply serve_unset_stays.
  - intros pre post -> H. rewrite serve_app. by apply serve_full_cluster_stays.
Qed.

Lemma full_cluster_set_exactly_on_reaching_expectation_witness :
  let reg := λ k, Coordinator.Request (Some "abc")
                    (Some (Json.Registration k "h" (8080 + k))) in
  let s0 := Coordinator.init "driver" (Some 3) false (Some "abc") in
  Coordinator.full_cluster (Coordinator.serve [reg 0; reg 1] s0) = Some false
  ∧ Coordinator.full_cluster (Coordinator.serve [reg 0; reg 1; reg 2] s0) = Some true
  ∧ Coordinator.full_cluster (Coordinator.serve [reg 0; reg 1; reg 2; reg 3] s0)
    = Some true.
Proof.
  intros reg s0. split; [reflexivity|].
  pose proof (full_cluster_set_exactly_on_reaching_expectation
                "driver" (Some 3) false (Some "abc") [reg 0; reg 1; reg 2; reg 3])
    as (Hiff & _ & Hstay).
  assert (Coordinator.full_cluster (Coordinator.serve [reg 0; reg 1; reg 2] s0)
          = Some true) as H3.
  { apply (proj1 (full_cluster_set_exactly_on_reaching_expectation
                    "driver" (Some 3) false (Some "abc") [reg 0; reg 1; reg 2])).
    exists [reg 0; reg 1], (reg 2), []. split_and!; reflexivity. }
  split; [exact H3|].
  exact (Hstay [reg 0; reg 1; reg 2] [reg 3] eq_refl H3).
Defined.

(** C10.  A coordinator created with [await_partitions=0] starts with
    [full_cluster] at [None], as one created without an expectation does,
    and no run of [/register] requests changes that. *)
Theorem zero_expectation_is_no_expectation
    (hostname : string) (verb : bool) (tok : option string)
    (reqs : list Coordinator.request) :
  let s0 := Coordinator.init hostname (Some 0) verb tok in
  Coordinator.full_cluster s0 = None
  ∧ Coordinator.full_cluster s0 =
      Coordinator.full_cluster (Coordinator.init hostname None verb tok)
  ∧ Coordinator.full_cluster (Coordinator.serve reqs s0) = None
  ∧ Coordinator.full_cluster (Coordinator.serve reqs s0) ≠ Some true.
Proof.
  intros s0. assert (Coordinator.full_cluster (Coordinator.serve reqs s0) = None) as H
    by by apply serve_unset_stays.
  rewrite H. done.
Qed.

(** C2.  When a token is configured and the request does not present it,
    the answer is 403, every field of the coordinator is as before and
    nothing is printed or called, whatever the body.  When no token is
    configured ([None] or the empty string), the token a request presents
    plays no part: with a readable body the route does exactly what it does
    for the same body without a token, the answer is 200, the new (host,
    port) is stored under the partition index, the other entries are as
    before, and the flag is set if the count has reached the expectation
    and is as before otherwise.  (The observer, if one is set, is taken to
    return.) *)
Theorem register_checks_token_only_if_configured
    (s : Coordinator.t) (req : Coordinator.request) :
  (truthy_str (Coordinator.token s) = true →
   Coordinator.token s ≠ Coordinator.arg_token req →
   Coordinator.register req s = (Coordinator.R403, s, []))
  ∧ (truthy_str (Coordinator.token s) = false →
     ∀ presented j,
       let res := Coordinator.register (Coordinator.Request presented (Some j)) s in
       res = Coordinator.register (Coordinator.Request None (Some j)) s
       ∧ res.1.1 = Coordinator.R200
       ∧ Coordinator.hosts res.1.2 !! Json.partition j = Some (Json.host j, Json.port j)
       ∧ (∀ k, k ≠ Json.partition j →
            Coordinator.hosts res.1.2 !! k = Coordinator.hosts s !! k)
       ∧ Coordinator.full_cluster res.1.2
         = (if bool_decide (Coordinator.await_partitions s
                            = Some (Z.of_nat (size (Coordinator.hosts res.1.2))))
            then Some true else Coordinator.full_cluster s)
       ∧ Coordinator.await_partitions res.1.2 = Coordinator.await_partitions s
       ∧ Coordinator.token res.1.2 = Coordinator.token s).
Proof.
  split.
  - intros Ht Hne. unfold Coordinator.register, Coordinator.token_mismatch.
    rewrite Ht. by rewrite bool_decide_eq_false_2.
  - intros Ht presented j res.
    assert (Coordinator.token_mismatch s (Coordinator.Request presented (Some j)) = false)
      as Hm.
    { unfold Coordinator.token_mismatch. by rewrite Ht. }
    destruct (register_accepted s (Coordinator.Request presented (Some j)) j Hm eq_refl)
      as (Hh & Hf & Ha & Htok & _).
    fold res in Hh, Hf, Ha, Htok. split_and!.
    + subst res. unfold Coordinator.register, Coordinator.token_mismatch.
      by rewrite Ht.
    + subst res. unfold Coordinator.register. by rewrite Hm.
    + rewrite Hh. apply lookup_insert_eq.
    + intros k Hk. rewrite Hh. by apply lookup_insert_ne.
    + by rewrite Hf, Hh.
    + done.
    + done.
Qed.

Lemma register_checks_token_only_if_configured_witness :
  Coordinator.register
    (Coordinator.Request (Some "xyz") (Some (Json.Registration 0 "h" 80)))
    (Coordinator.init "driver" (Some 3) true (Some "abc"))
  = (Coordinator.R403, Coordinator.init "driver" (Some 3) true (Some "abc"), [])
  ∧ (Coordinator.register
       (Coordinator.Request (Some "xyz") (Some (Json.Registration 0 "h" 80)))
       (Coordinator.init "driver" (Some 3) true None)).1.1 = Coordinator.R200
  ∧ Coordinator.hosts
      (Coordinator.register
         (Coordinator.Request (Some "xyz") (Some (Json.Registration 0 "h" 80)))
         (Coordinator.init "driver" (Some 3) true None)).1.2 !! 0
    = Some ("h", 80).
Proof.
  split.
  - apply (proj1 (register_checks_token_only_if_configured
             (Coordinator.init "driver" (Some 3) true (Some "abc"))
             (Coordinator.Request (Some "xyz") (Some (Json.Registration 0 "h" 80))))).
    + reflexivity.
    + simpl. discriminate.
  - pose proof (proj2 (register_checks_token_only_if_configured
                         (Coordinator.init "driver" (Some 3) true None)
                         (Coordinator.Request None None))
                  eq_refl (Some "xyz") (Json.Registration 0 "h" 80)) as H.
    cbv zeta in H. destruct H as (_ & H200 & Hstored & _).
    split; [exact H200|exact Hstored].
Defined.

Section Counting.
Implicit Types (s : Coordinator.t) (reqs : list Coordinator.request).

Lemma answers_app (pre post : list Coordinator.request) s :
  Coordinator.answers (pre ++ post) s
  = Coordinator.answers pre s ++ Coordinator.answers post (Coordinator.serve pre s).
Proof.
  revert s. induction pre as [|r pre IH]; intros s; [done|].
  simpl. by rewrite IH.
Qed.

Lemma partitions_app (pre post : list Coordinator.request) :
  Coordinator.partitions (pre ++ post)
  = Coordinator.partitions pre ++ Coordinator.partitions post.
Proof. apply omap_app. Qed.

(** A run of accepted requests for indices that are new and pairwise
    distinct adds one entry per request. *)
Lemma serve_size reqs s :
  Forall (λ a, a = Coordinator.R200) (Coordinator.answers reqs s) →
  NoDup (Coordinator.partitions reqs) →
  (∀ p, p ∈ Coordinator.partitions reqs → Coordinator.hosts s !! p = None) →
  size (Coordinator.hosts (Coordinator.serve reqs s))
  = (size (Coordinator.hosts s) + length reqs)%nat.
Proof.
  revert s. induction reqs as [|r reqs IH]; intros s Hok Hnd Hnew; simpl.
  - lia.
  - simpl in Hok. apply Forall_cons in Hok as [Hr Hok].
    destruct (register_cases s r) as [[_ E]|[(_ & _ & E)|(j & Hm & Hb & _)]];
      [by rewrite E in Hr|by rewrite E in Hr|].
    destruct (register_accepted s r j Hm Hb) as (Hh & _). simpl in Hh.
    unfold Coordinator.partitions in Hnd, Hnew, IH. simpl in Hnd, Hnew.
    rewrite Hb in Hnd, Hnew. simpl in Hnd, Hnew.
    apply NoDup_cons in Hnd as [Hnotin Hnd].
    rewrite IH; [|done|done|].
    + rewrite Hh, map_size_insert_None; [lia|]. apply Hnew. by left.
    + intros p Hp. rewrite Hh, lookup_insert_ne.
      * apply Hnew. by right.
      * intros <-. done.
Qed.

End Counting.

(** C3.  On a new coordinator, after any part of a run of accepted
    [/register] requests whose partition indices are pairwise distinct,
    [/status] gives as [current_partitions] the number of requests served so
    far. *)
Theorem status_counts_distinct_registrations
    (hostname : string) (await : option Z) (verb : bool) (tok : option string)
    (reqs : list Coordinator.request) :
  let s0 := Coordinator.init hostname await verb tok in
  Forall (λ a, a = Coordinator.R200) (Coordinator.answers reqs s0) →
  NoDup (Coordinator.partitions reqs) →
  ∀ pre post, reqs = pre ++ post →
    Coordinator.current_partitions (Coordinator.status (Coordinator.serve pre s0))
    = length pre
    ∧ length (Coordinator.partitions pre) = length pre.
Proof.
  intros s0 Hok Hnd pre post ->.
  rewrite answers_app in Hok. apply Forall_app in Hok as [Hok _].
  rewrite partitions_app in Hnd. apply NoDup_app in Hnd as (Hnd & _ & _).
  split.
  - unfold Coordinator.status. simpl. rewrite serve_size; [|done|done|done].
    unfold s0. simpl. by rewrite map_size_empty.
  - clear Hnd. revert Hok. generalize s0. clear s0.
    induction pre as [|r pre IH]; intros s Hok; [done|].
    simpl in Hok. apply Forall_cons in Hok as [Hr Hok].
    destruct (register_cases s r) as [[_ E]|[(_ & _ & E)|(j & Hm & Hb & _)]];
      [by rewrite E in Hr|by rewrite E in Hr|].
    unfold Coordinator.partitions in *. simpl. rewrite Hb. simpl.
    f_equal. by eapply IH.
Qed.

Lemma status_counts_distinct_registrations_witness :
  Coordinator.current_partitions
    (Coordinator.status
       (Coordinator.serve
          [Coordinator.Request (Some "abc") (Some (Json.Registration 0 "h0" 80));
           Coordinator.Request (Some "abc") (Some (Json.Registration 1 "h1" 81))]
          (Coordinator.init "driver" (Some 3) false (Some "abc"))))
  = 2%nat.
Proof.
  refine (proj1 (status_counts_distinct_registrations "driver" (Some 3) false (Some "abc")
           [Coordinator.Request (Some "abc") (Some (Json.Registration 0 "h0" 80));
            Coordinator.Request (Some "abc") (Some (Json.Registration 1 "h1" 81));
            Coordinator.Request (Some "abc") (Some (Json.Registration 2 "h2" 82))]
           _ _
           [Coordinator.Request (Some "abc") (Some (Json.Registration 0 "h0" 80));
            Coordinator.Request (Some "abc") (Some (Json.Registration 1 "h1" 81))]
           [Coordinator.Request (Some "abc") (Some (Json.Registration 2 "h2" 82))]
           _)).
  - vm_compute. repeat constructor.
  - compute_done.
  - reflexivity.
Defined.

(** What a request that goes through does to the outside: some lines are
    printed, then the observer, if there is one, is called once with the
    final coordinator in view. *)
Lemma register_out (s : Coordinator.t) (req : Coordinator.request)
    (j : Json.registration) :
  Coordinator.token_mismatch s req = false →
  Coordinator.body req = Some j →
  let s' := (Coordinator.register req s).1.2 in
  ∃ prints,
    (Coordinator.register req s).2 =
      prints ++
      match Coordinator.register_callback s with
      | Some fn =>
        [Coordinator.Callback fn
           {| Coordinator.partition_ind := Json.partition j;
              Coordinator.old_entry := Coordinator.hosts s !! Json.partition j;
              Coordinator.new_entry := (Json.host j, Json.port j);
              Coordinator.ev_full_cluster := Coordinator.full_cluster s' |}
           s']
      | None => []
      end
    ∧ ∀ e, e ∈ prints → ∃ line, e = Coordinator.Print line.
Proof.
  intros Hm Hb. unfold Coordinator.register. rewrite Hm, Hb. simpl.
  set (full := bool_decide _).
  set (out1 := if Coordinator.verbose s then _ else _).
  assert (∀ e, e ∈ out1 → ∃ line, e = Coordinator.Print line) as H1.
  { subst out1. destruct (Coordinator.verbose s).
    - intros e ->%list_elem_of_singleton. by eexists.
    - by intros e ?%elem_of_nil. }
  clearbody out1.
  destruct full; simpl.
  - set (out2 := if Coordinator.verbose s then _ else _).
    assert (∀ e, e ∈ out2 → ∃ line, e = Coordinator.Print line) as H2.
    { subst out2. destruct (Coordinator.verbose s).
      - intros e [->|He]%elem_of_cons; [by eexists|].
        apply list_elem_of_fmap in He as (kd & -> & _). by eexists.
      - by intros e ?%elem_of_nil. }
    clearbody out2. exists (out1 ++ out2). split.
    + by rewrite <- app_assoc.
    + intros e [?|?]%elem_of_app; auto.
  - exists out1. split; [done|auto].
Qed.

(** C4.  A request that goes through leaves the new (host, port) under its
    partition index, whatever was there, and leaves the other entries alone;
    and when an observer is set, the one call to it is the last thing the
    route does: the coordinator it can read at that moment is the final one,
    and the event holds the index, the entry that was there before (or
    [None]), the new entry and the final [full_cluster]. *)
Theorem register_overwrites_then_calls_observer
    (s : Coordinator.t) (req : Coordinator.request) (j : Json.registration) :
  Coordinator.token_mismatch s req = false →
  Coordinator.body req = Some j →
  let s' := (Coordinator.register req s).1.2 in
  let out := (Coordinator.register req s).2 in
  (Coordinator.register req s).1.1 = Coordinator.R200
  ∧ Coordinator.hosts s' !! Json.partition j = Some (Json.host j, Json.port j)
  ∧ (∀ k, k ≠ Json.partition j → Coordinator.hosts s' !! k = Coordinator.hosts s !! k)
  ∧ (∀ fn, Coordinator.register_callback s = Some fn →
       ∃ prints,
         out = prints ++
               [Coordinator.Callback fn
                  {| Coordinator.partition_ind := Json.partition j;
                     Coordinator.old_entry := Coordinator.hosts s !! Json.partition j;
                     Coordinator.new_entry := (Json.host j, Json.port j);
                     Coordinator.ev_full_cluster := Coordinator.full_cluster s' |}
                  s']
         ∧ ∀ e, e ∈ prints → ∃ line, e = Coordinator.Print line).
Proof.
  intros Hm Hb s' out.
  destruct (register_accepted s req j Hm Hb) as (Hh & _). fold s' in Hh.
  split_and!.
  - unfold Coordinator.register. by rewrite Hm, Hb.
  - rewrite Hh. apply lookup_insert_eq.
  - intros k Hk. rewrite Hh. by apply lookup_insert_ne.
  - intros fn Hfn.
    destruct (register_out s req j Hm Hb) as (prints & E & Hp).
    rewrite Hfn in E. by exists prints.
Qed.

Lemma register_overwrites_then_calls_observer_witness :
  let s := Coordinator.set_register_callback 7%nat
             (Coordinator.serve
                [Coordinator.Request None (Some (Json.Registration 0 "old" 80))]
                (Coordinator.init "driver" (Some 1) false None)) in
  let req := Coordinator.Request None (Some (Json.Registration 0 "new" 81)) in
  Coordinator.hosts s !! 0 = Some ("old", 80)
  ∧ Coordinator.hosts (Coordinator.register req s).1.2 !! 0 = Some ("new", 81)
  ∧ (Coordinator.register req s).2 =
      [Coordinator.Callback 7%nat
         (Coordinator.Event 0 (Some ("old", 80)) ("new", 81) (Some true))
         (Coordinator.register req s).1.2].
Proof.
  intros s req.
  pose proof (register_overwrites_then_calls_observer s req
                (Json.Registration 0 "new" 81) eq_refl eq_refl) as H.
  split; [reflexivity|]. split; [exact (proj1 (proj2 H))|]. reflexivity.
Defined.

(** ** Shutting partition servers down *)

Section Shutdown.
Implicit Types (s : Coordinator.t) (h : gmap Z (string * Z)).

(** [shutdown_host] changes at most the entry of its own key, and posts to
    the address found under that key. *)
Lemma shutdown_host_frame (reply : string → post_result) (k : Z) s :
  (∃ h, (Coordinator.shutdown_host reply k s).1.2 = Coordinator.set_hosts h s
        ∧ ∀ k', k' ≠ k → h !! k' = Coordinator.hosts s !! k')
  ∧ (Coordinator.shutdown_host reply k s).2
    = Coordinator.requests_for (Coordinator.token s) (Coordinator.hosts s) [k].
Proof.
  unfold Coordinator.shutdown_host, Coordinator.requests_for. simpl.
  destruct (Coordinator.hosts s !! k) as [hp|] eqn:E.
  - destruct (reply _); simpl; (split; [|done]).
    + eexists. split; [done|]. intros k' Hk'. by apply lookup_delete_ne.
    + exists (Coordinator.hosts s). split; [by destruct s|done].
  - split; [|done]. exists (Coordinator.hosts s). split; [by destruct s|done].
Qed.





End Shutdown.

Lemma append_assoc (a b c : string) : (a +:+ b) +:+ c = a +:+ b +:+ c.
Proof.
  induction a as [|x a IH]; [done|].
  change (String x ((a +:+ b) +:+ c) = String x (a +:+ b +:+ c)). by rewrite IH.
Qed.

Lemma append_nil_r (a : string) : a +:+ "" = a.
Proof.
  induction a as [|x a IH]; [done|].
  change (String x (a +:+ "") = String x a). by rewrite IH.
Qed.

(** C5, as the code has it.  [shutdown_host] on a registered index posts to
    [http://host:port/control/shutdown], with [?token=...] appended when a
    token is configured.  If a response comes back, of whatever status, the
    entry is then removed and nothing else changes; if the post raises, the
    exception leaves [shutdown_host] and the coordinator is as before, entry
    included.  On an index that is not registered nothing is posted and
    nothing changes. *)
Theorem shutdown_host_removes_entry_after_response
    (reply : string → post_result) (ind : Z) (s : Coordinator.t) :
  let r := (Coordinator.shutdown_host reply ind s).1.1 in
  let s' := (Coordinator.shutdown_host reply ind s).1.2 in
  let out := (Coordinator.shutdown_host reply ind s).2 in
  (Coordinator.hosts s !! ind = None → r = Returned () ∧ s' = s ∧ out = [])
  ∧ (∀ h p, Coordinator.hosts s !! ind = Some (h, p) →
       let url := "http://" +:+ h +:+ ":" +:+ fmt_d p +:+ "/control/shutdown" +:+
                  (if truthy_str (Coordinator.token s)
                   then "?token=" +:+ default "" (Coordinator.token s) else "") in
       out = [Coordinator.Post url]
       ∧ (∀ status, reply url = Responded status →
            r = Returned ()
            ∧ s' = Coordinator.set_hosts (delete ind (Coordinator.hosts s)) s
            ∧ Coordinator.hosts s' !! ind = None
            ∧ ∀ k, k ≠ ind → Coordinator.hosts s' !! k = Coordinator.hosts s !! k)
       ∧ (∀ e, reply url = Unreachable e → r = Raised e ∧ s' = s)).
Proof.
  pose proof append_assoc as Hassoc. pose proof append_nil_r as Hnil.
  intros r s' out. subst r s' out. unfold Coordinator.shutdown_host. split.
  - by intros ->.
  - intros h p ->. simpl.
    assert (Coordinator.shutdown_url (Coordinator.token s) (h, p)
            = "http://" +:+ h +:+ ":" +:+ fmt_d p +:+ "/control/shutdown" +:+
              (if truthy_str (Coordinator.token s)
               then "?token=" +:+ default "" (Coordinator.token s) else "")) as ->.
    { unfold Coordinator.shutdown_url, with_token, http_url. simpl fst. simpl snd.
      destruct (Coordinator.token s) as [t|] eqn:Et.
      - destruct (truthy_str (Some t)); simpl default.
        + by rewrite !Hassoc.
        + by rewrite !Hassoc, Hnil.
      - simpl truthy_str. cbv iota. by rewrite !Hassoc, Hnil. }
    split_and!.
    + by destruct (reply _).
    + intros status ->. simpl. split_and!; [done|done|apply lookup_delete_eq|].
      intros k Hk. by apply lookup_delete_ne.
    + by intros e ->.
Qed.

Lemma shutdown_host_removes_entry_after_response_witness :
  let s := Coordinator.serve
             [Coordinator.Request (Some "abc") (Some (Json.Registration 0 "h0" 8080))]
             (Coordinator.init "driver" (Some 1) false (Some "abc")) in
  let reply := λ _ : string, Responded 500 in
  (Coordinator.shutdown_host reply 1 s).1.2 = s
  ∧ (Coordinator.shutdown_host reply 0 s).2
    = [Coordinator.Post "http://h0:8080/control/shutdown?token=abc"]
  ∧ Coordinator.hosts (Coordinator.shutdown_host reply 0 s).1.2 !! 0 = None.
Proof.
  intros s reply. split_and!.
  - apply (proj1 (shutdown_host_removes_entry_after_response reply 1 s)). reflexivity.
  - apply (proj2 (shutdown_host_removes_entry_after_response reply 0 s) "h0" 8080).
    reflexivity.
  - eapply (proj2 (shutdown_host_removes_entry_after_response reply 0 s) "h0" 8080).
    + reflexivity.
    + reflexivity.
Defined.

(** C5, as the specification words it, fails: when the post to a registered server
    raises (the server cannot be reached), the entry is still in the
    registry after [shutdown_host]. *)
Lemma shutdown_host_keeps_entry_when_post_raises :
  let s := Coordinator.serve
             [Coordinator.Request (Some "abc") (Some (Json.Registration 0 "h0" 8080))]
             (Coordinator.init "driver" (Some 1) false (Some "abc")) in
  let reply := λ _ : string, Unreachable ConnectionError in
  Coordinator.hosts s !! 0 = Some ("h0", 8080)
  ∧ (Coordinator.shutdown_host reply 0 s).2
    = [Coordinator.Post "http://h0:8080/control/shutdown?token=abc"]
  ∧ (Coordinator.shutdown_host reply 0 s).1.1 = Raised ConnectionError
  ∧ Coordinator.hosts (Coordinator.shutdown_host reply 0 s).1.2 !! 0
    = Some ("h0", 8080)
  ∧ ¬ (∀ (reply : string → post_result) (ind : Z) (s : Coordinator.t),
         Coordinator.hosts (Coordinator.shutdown_host reply ind s).1.2 !! ind = None).
Proof.
  intros s reply. split_and!; [reflexivity..|].
  intros H. specialize (H reply 0 s). vm_compute in H. discriminate H.
Qed.




(** ** The partition server *)

(** The shape of what [__call__] does to the outside: either the worker
    never serves, or the last two things it does are the post to
    [/register] and [app.run], in that order. *)
Lemma call_trace (env : PartitionServer.world) (ind : Z) (w : PartitionServer.t) :
  let r := (PartitionServer.__call__ env ind w).1.1 in
  let out := (PartitionServer.__call__ env ind w).2 in
  let json := {| Json.partition := ind;
                 Json.host := PartitionServer.get_host env;
                 Json.port := default (PartitionServer.get_open_port env)
                                      (PartitionServer.port w) |} in
  ((∃ e, r = Raised e)
   ∧ (∀ p, PartitionServer.Serve p ∉ out)
   ∧ ∀ url js, PartitionServer.Post url js ∈ out →
       ∃ e, PartitionServer.post env url js = Unreachable e ∧ r = Raised e)
  ∨ (∃ pre base status,
       PartitionServer.coordinator_url w = Some base
       ∧ PartitionServer.post env
           (with_token (base +:+ "/register") (PartitionServer.token w)) json
         = Responded status
       ∧ out = pre ++ [PartitionServer.Post
                         (with_token (base +:+ "/register") (PartitionServer.token w))
                         json;
                       PartitionServer.Serve (Json.port json)]
       ∧ (∀ p, PartitionServer.Serve p ∉ pre)
       ∧ (∀ url js, PartitionServer.Post url js ∉ pre)).
Proof.
  intros r out json. subst r out.
  unfold PartitionServer.__call__, PartitionServer._launch_server,
    PartitionServer._init_partition, PartitionServer._register.
  destruct w as [cls port tok curl pind host bp fn meth cb]. simpl in *.
  destruct cls; simpl.
  { left. split_and!; [by eexists|by intros ? ?%elem_of_nil|by intros ?? ?%elem_of_nil]. }
  destruct fn as [[e|]|]; [| |destruct meth as [[e|]|]; [destruct e| |]]; simpl;
  destruct bp; simpl; destruct curl as [base|]; simpl.
  all: try match goal with
           | |- context [PartitionServer.post ?en ?u ?j] =>
             destruct (PartitionServer.post en u j) as [status|e'] eqn:Ep; simpl
           end.
  all: try match goal with
           | |- context [PartitionServer.app_run ?en] =>
             destruct (PartitionServer.app_run en); simpl
           end.
  all: first
    [ left; split_and!;
      [ by eexists
      | absent_from_trace
      | intros ? ? H;
        repeat (apply elem_of_cons in H as [H|H];
                [first [discriminate H
                       | injection H as -> ->; eexists; split; [exact Ep|reflexivity]]|]);
        by apply elem_of_nil in H ]
    | right; eexists; exists base, status; split_and!;
      [ reflexivity
      | exact Ep
      | lazymatch goal with
        | |- ?l = ?pre ++ _ => unify pre (take (length l - 2)%nat l); reflexivity
        end
      | absent_from_trace
      | absent_from_trace ] ].
Qed.

(** C7.  In every call of a partition server, whatever its class, its
    hooks and the answers of the outside: if [app.run] is reached, the post
    to [/register] was made before it and got a response; and if the post
    to [/register] raises (the coordinator cannot be reached), that
    exception is what leaves [__call__], and [app.run] is never reached. *)
Theorem registration_precedes_serving
    (env : PartitionServer.world) (ind : Z) (w : PartitionServer.t) :
  let r := (PartitionServer.__call__ env ind w).1.1 in
  let out := (PartitionServer.__call__ env ind w).2 in
  let json := {| Json.partition := ind;
                 Json.host := PartitionServer.get_host env;
                 Json.port := default (PartitionServer.get_open_port env)
                                      (PartitionServer.port w) |} in
  (∀ i p, out !! i = Some (PartitionServer.Serve p) →
     ∃ j base, (j < i)%nat
       ∧ PartitionServer.coordinator_url w = Some base
       ∧ out !! j = Some (PartitionServer.Post
                            (with_token (base +:+ "/register") (PartitionServer.token w))
                            json))
  ∧ (∀ url js e,
       PartitionServer.Post url js ∈ out →
       PartitionServer.post env url js = Unreachable e →
       r = Raised e ∧ ¬ PartitionServer.serving out)
  ∧ (∀ base e,
       PartitionServer.coordinator_url w = Some base →
       PartitionServer.post env
         (with_token (base +:+ "/register") (PartitionServer.token w)) json
       = Unreachable e →
       (∃ e', r = Raised e') ∧ ¬ PartitionServer.serving out).
Proof.
  intros r out json.
  destruct (call_trace env ind w) as
    [(Hr & Hs & Hp)|(pre & base & status & Hu & Hpost & Hout & Hs & Hp)];
    subst r out json.
  - split_and!.
    + intros i p Hi. destruct (Hs p). by eapply list_elem_of_lookup_2.
    + intros url js e Hin Hun. destruct (Hp url js Hin) as (e' & Hun' & ->).
      rewrite Hun in Hun'. injection Hun' as ->. split; [done|].
      intros [p Hin']. by destruct (Hs p).
    + intros base e _ _. split; [done|]. intros [p Hin']. by destruct (Hs p).
  - split_and!.
    + intros i p Hi. exists (length pre), base.
      rewrite Hout in Hi |- *.
      destruct (decide (i < length pre)%nat) as [Hlt|Hge].
      { rewrite lookup_app_l in Hi by done. destruct (Hs p).
        by eapply list_elem_of_lookup_2. }
      rewrite lookup_app_r in Hi by lia.
      destruct (i - length pre)%nat as [|[|n]] eqn:En; simpl in Hi; [done| |done].
      split_and!; [lia|done|].
      rewrite lookup_app_r by lia. by rewrite Nat.sub_diag.
    + intros url js e Hin Hun. rewrite Hout in Hin.
      apply elem_of_app in Hin as [Hin|Hin]; [by destruct (Hp url js)|].
      apply elem_of_cons in Hin as [Hin|Hin%list_elem_of_singleton]; [|done].
      injection Hin as -> ->. by rewrite Hpost in Hun.
    + intros base' e Hu' Hun. rewrite Hu in Hu'. injection Hu' as <-.
      by rewrite Hpost in Hun.
Qed.

Lemma registration_precedes_serving_witness :
  let w := PartitionServer.set_token (Some "abc")
             (PartitionServer.set_coordinator_url "http://driver:5000"
                (PartitionServer.init PartitionServer.Flask None false None None)) in
  let down := PartitionServer.World "worker" 9000
                (λ _ _, Unreachable ConnectionError) None in
  (PartitionServer.__call__ down 3 w).1.1 = Raised ConnectionError
  ∧ ¬ PartitionServer.serving (PartitionServer.__call__ down 3 w).2.
Proof.
  intros w down.
  apply (proj1 (proj2 (registration_precedes_serving down 3 w))
           "http://driver:5000/register?token=abc"
           (Json.Registration 3 "worker" 9000) ConnectionError).
  - vm_compute. do 4 right. left.
  - reflexivity.
Defined.

(** ** The cluster *)

(** C8.  [start] on a cluster that is active returns at once: every field
    of the cluster (the token, the coordinator, the map job, the flag and
    the rest) is as before, and nothing is done to the outside. *)
Theorem start_when_active_changes_nothing
    (env : Cluster.world) (await_hosts : bool) (c : Cluster.t) :
  Cluster.is_active c = true →
  Cluster.start env await_hosts c = (Returned (), c, []).
Proof. intros H. unfold Cluster.start. by rewrite H. Qed.

Lemma start_when_active_changes_nothing_witness :
  let first := Cluster.World [222; 173; 190; 239; 0; 1; 2; 3; 4; 5] "driver" 5000 [] in
  let again := Cluster.World [1; 1; 1; 1; 1; 1; 1; 1; 1; 1] "driver" 6000 [] in
  let c := (Cluster.start first false
              (Cluster.init (Cluster.Conf (Some 2) (Some 4)) (Cluster.Rdd 3 17)
                 None false false)).1.2 in
  Cluster.token c = Some "deadbeef000102030405"
  ∧ Cluster.start again true c = (Returned (), c, []).
Proof.
  intros first again c. split; [reflexivity|].
  apply (start_when_active_changes_nothing again true c). reflexivity.
Defined.

(** C9, on the code.  [stop] on a cluster that was never started reads
    [self.coordinator], which is [None], and calls [shutdown_hosts] on it:
    what leaves [stop] is the [AttributeError] of that call, not an error
    of a check made beforehand.  [get_hosts] on the same cluster does look
    at [self.coordinator] first and answers [None]. *)
Theorem stop_before_start_raises_attribute_error
    (conf : Cluster.conf_t) (r : Cluster.rdd_t) (ps : option PartitionServer.t)
    (cache verb : bool) (net : Z → string → post_result) (order : list Z)
    (reply : string → post_result) :
  let c := Cluster.init conf r ps cache verb in
  Cluster.stop net order reply c = (Raised AttributeError, c, [])
  ∧ Cluster.get_hosts c = None
  ∧ Cluster.is_active c = false.
Proof. done. Qed.

(** * Further properties of the code *)

(** ** The registry over a run of requests *)

Section Registry.
Implicit Types (s : Coordinator.t) (req : Coordinator.request)
  (reqs : list Coordinator.request).

Lemma register_answer_accepts s req :
  (Coordinator.register req s).1.1 = Coordinator.R200 ↔ Coordinator.accepts s req = true.
Proof.
  unfold Coordinator.accepts.
  destruct (register_cases s req) as [[Hm E]|[(Hm & Hb & E)|(j & Hm & Hb & E)]];
    rewrite ?E, Hm; simpl.
  - done.
  - rewrite Hb. split; [done|]. intros H%bool_decide_eq_true. by destruct H.
  - rewrite Hb. split; [|done]. intros _. apply bool_decide_eq_true. by eexists.
Qed.

Lemma accepts_same_token s s' req :
  Coordinator.token s' = Coordinator.token s →
  Coordinator.accepts s' req = Coordinator.accepts s req.
Proof.
  intros H. unfold Coordinator.accepts, Coordinator.token_mismatch. by rewrite H.
Qed.

Lemma accepted_same_token s s' reqs :
  Coordinator.token s' = Coordinator.token s →
  Coordinator.accepted s' reqs = Coordinator.accepted s reqs.
Proof.
  intros H. unfold Coordinator.accepted. f_equal.
  induction reqs as [|r reqs IH]; [done|].
  rewrite !filter_cons, IH, (accepts_same_token s s' r H). done.
Qed.

Lemma accepted_cons s req reqs :
  Coordinator.accepted s (req :: reqs) =
    match Coordinator.body req with
    | Some j => if Coordinator.accepts s req then j :: Coordinator.accepted s reqs
                else Coordinator.accepted s reqs
    | None => Coordinator.accepted s reqs
    end.
Proof.
  unfold Coordinator.accepted. rewrite filter_cons.
  destruct (decide (Coordinator.accepts s req = true)) as [Ha|Ha].
  - rewrite Ha. simpl. by destruct (Coordinator.body req).
  - apply not_true_is_false in Ha. rewrite Ha.
    unfold Coordinator.accepts in Ha. destruct (Coordinator.body req); [done|done].
Qed.

(** The registry after one request. *)
Lemma register_hosts s req :
  Coordinator.hosts (Coordinator.register req s).1.2 =
    match Coordinator.body req with
    | Some j => if Coordinator.accepts s req
                then <[Json.partition j := (Json.host j, Json.port j)]> (Coordinator.hosts s)
                else Coordinator.hosts s
    | None => Coordinator.hosts s
    end.
Proof.
  unfold Coordinator.accepts.
  destruct (register_cases s req) as [[Hm E]|[(Hm & Hb & E)|(j & Hm & Hb & E)]].
  - rewrite E, Hm. simpl. by destruct (Coordinator.body req).
  - by rewrite E, Hb.
  - destruct (register_accepted s req j Hm Hb) as (Hh & _). simpl in Hh.
    by rewrite Hh, Hm, Hb.
Qed.

End Registry.

(** X1.  After any run of [/register] requests, the address under an index
    [k] is the one of the last accepted request for [k]; if no request for
    [k] was accepted the entry is as it was before the run. *)
Theorem registry_holds_last_accepted_registration
    (reqs : list Coordinator.request) (s : Coordinator.t) (k : Z) :
  Coordinator.hosts (Coordinator.serve reqs s) !! k =
    match last (filter (λ j, Json.partition j = k) (Coordinator.accepted s reqs)) with
    | Some j => Some (Json.host j, Json.port j)
    | None => Coordinator.hosts s !! k
    end.
Proof.
  revert s. induction reqs as [|r reqs IH]; intros s; [done|].
  simpl. rewrite IH. clear IH.
  rewrite (accepted_same_token s _ reqs) by apply register_frame.
  rewrite accepted_cons, register_hosts.
  set (rest := filter (λ j, Json.partition j = k) (Coordinator.accepted s reqs)).
  destruct (Coordinator.body r) as [j|]; [|done].
  destruct (Coordinator.accepts s r); [|done].
  rewrite filter_cons. fold rest.
  destruct (decide (Json.partition j = k)) as [<-|Hne].
  - destruct rest as [|j' rest'] eqn:E.
    + simpl. apply lookup_insert_eq.
    + rewrite last_cons_cons. destruct (last (j' :: rest')) eqn:El; [done|].
      by apply last_None in El.
  - destruct (last rest); [done|]. by apply lookup_insert_ne.
Qed.

(** X2.  After any run of [/register] requests on a new coordinator,
    [/status] gives as [current_partitions] the number of different
    partition indices among the accepted requests: a request that is turned
    away or that repeats an index adds nothing. *)
Theorem status_counts_accepted_indices
    (hostname : string) (await : option Z) (verb : bool) (tok : option string)
    (reqs : list Coordinator.request) :
  let s0 := Coordinator.init hostname await verb tok in
  dom (Coordinator.hosts (Coordinator.serve reqs s0))
    = list_to_set (Json.partition <$> Coordinator.accepted s0 reqs)
  ∧ Coordinator.current_partitions (Coordinator.status (Coordinator.serve reqs s0))
    = size (list_to_set (Json.partition <$> Coordinator.accepted s0 reqs) : gset Z).
Proof.
  intros s0.
  assert (∀ s, dom (Coordinator.hosts (Coordinator.serve reqs s))
            = dom (Coordinator.hosts s)
              ∪ list_to_set (Json.partition <$> Coordinator.accepted s reqs)) as H.
  { induction reqs as [|r reqs IH]; intros s; simpl.
    - set_solver.
    - rewrite IH. rewrite (accepted_same_token s _ reqs) by apply register_frame.
      rewrite accepted_cons, register_hosts.
      destruct (Coordinator.body r) as [j|]; [|done].
      destruct (Coordinator.accepts s r); [|done].
      rewrite dom_insert_L, fmap_cons. simpl. set_solver. }
  assert (dom (Coordinator.hosts (Coordinator.serve reqs s0))
          = list_to_set (Json.partition <$> Coordinator.accepted s0 reqs)) as Hd.
  { rewrite H. unfold s0. simpl. rewrite dom_empty_L. set_solver. }
  split; [done|]. simpl. by rewrite <- Hd, size_dom.
Qed.

(** X3.  Serving the same [/register] request twice in a row gives the same
    answer and leaves the coordinator as serving it once does. *)
Theorem register_twice_is_register_once
    (req : Coordinator.request) (s : Coordinator.t) :
  let once := Coordinator.register req s in
  let twice := Coordinator.register req once.1.2 in
  twice.1.1 = once.1.1 ∧ twice.1.2 = once.1.2.
Proof.
  intros once twice. subst once twice.
  destruct (register_cases s req) as [[Hm E]|[(Hm & Hb & E)|(j & Hm & Hb & E)]].
  - rewrite E. simpl. by rewrite E.
  - rewrite E. simpl. by rewrite E.
  - unfold Coordinator.register. rewrite Hm, Hb. simpl.
    set (h' := <[Json.partition j := (Json.host j, Json.port j)]> (Coordinator.hosts s)).
    assert (<[Json.partition j := (Json.host j, Json.port j)]> h' = h') as Hh
      by apply insert_insert_eq.
    destruct (bool_decide (Coordinator.await_partitions s = Some (Z.of_nat (size h'))))
      eqn:Ef; simpl.
    + unfold Coordinator.token_mismatch in *. simpl. rewrite Hm. simpl.
      rewrite ?Hb. simpl. rewrite !Hh, !Ef. simpl. by rewrite ?Hh.
    + unfold Coordinator.token_mismatch in *. simpl. rewrite Hm. simpl.
      rewrite ?Hb. simpl. rewrite !Hh, !Ef. simpl. by rewrite ?Hh.
Qed.

(** ** The flag and the count *)

Section Flag.
Implicit Types (s : Coordinator.t) (req : Coordinator.request)
  (reqs : list Coordinator.request).

(** One request sets the flag or leaves it. *)
Lemma register_flag_cases s req :
  Coordinator.full_cluster (Coordinator.register req s).1.2 = Some true
  ∨ Coordinator.full_cluster (Coordinator.register req s).1.2 = Coordinator.full_cluster s.
Proof.
  destruct (register_cases s req) as [[_ ->]|[(_ & _ & ->)|(j & Hm & Hb & _)]];
    [by right|by right|].
  destruct (register_accepted s req j Hm Hb) as (_ & -> & _).
  case_bool_decide; [by left|by right].
Qed.

Lemma serve_flag_cases reqs s :
  Coordinator.full_cluster (Coordinator.serve reqs s) = Some true
  ∨ Coordinator.full_cluster (Coordinator.serve reqs s) = Coordinator.full_cluster s.
Proof.
  revert s. induction reqs as [|r reqs IH]; intros s; [by right|].
  simpl. destruct (IH (Coordinator.register r s).1.2) as [H|H]; [by left|].
  rewrite H. apply register_flag_cases.
Qed.

(** One request adds at most one entry and removes none. *)
Lemma register_size s req :
  (size (Coordinator.hosts s) ≤ size (Coordinator.hosts (Coordinator.register req s).1.2)
   ≤ S (size (Coordinator.hosts s)))%nat.
Proof.
  rewrite register_hosts. destruct (Coordinator.body req) as [j|]; [|lia].
  destruct (Coordinator.accepts s req); [|lia].
  rewrite map_size_insert. destruct (_ !! _); simpl; lia.
Qed.

End Flag.

(** X4.  On a new coordinator that expects [n] partitions, [n] not 0, after
    a run of accepted requests with pairwise distinct indices the flag is
    [True] if [n] is positive and at least [n] requests were served, and
    [False] otherwise (so for ever [False] when [n] is negative). *)
Theorem full_cluster_after_distinct_registrations
    (hostname : string) (n : Z) (verb : bool) (tok : option string)
    (reqs : list Coordinator.request) :
  let s0 := Coordinator.init hostname (Some n) verb tok in
  n ≠ 0 →
  Forall (λ a, a = Coordinator.R200) (Coordinator.answers reqs s0) →
  NoDup (Coordinator.partitions reqs) →
  Coordinator.full_cluster (Coordinator.serve reqs s0)
  = Some (bool_decide (0 < n ≤ Z.of_nat (length reqs))).
Proof.
  intros s0 Hn Hok Hnd.
  assert (∀ pre post, reqs = pre ++ post →
            size (Coordinator.hosts (Coordinator.serve pre s0)) = length pre) as Hsize.
  { intros pre post ->.
    rewrite answers_app in Hok. apply Forall_app in Hok as [Hok _].
    rewrite partitions_app in Hnd. apply NoDup_app in Hnd as (Hnd & _ & _).
    rewrite serve_size; [|done|done|done]. unfold s0. simpl.
    by rewrite map_size_empty. }
  case_bool_decide as Hb.
  - apply serve_full_cluster. right.
    destruct (lookup_lt_is_Some_2 reqs (Z.to_nat (n - 1))) as [r Hr]; [lia|].
    exists (take (Z.to_nat (n - 1)) reqs), r, (drop (S (Z.to_nat (n - 1))) reqs).
    pose proof (take_drop_middle reqs _ r Hr) as Hsplit.
    split_and!.
    + done.
    + rewrite <- Hsplit, answers_app in Hok. apply Forall_app in Hok as [_ Hok].
      simpl in Hok. by apply Forall_cons in Hok as [? _].
    + rewrite (Hsize _ (drop (S (Z.to_nat (n - 1))) reqs)).
      * rewrite length_app, length_take. simpl. f_equal.
        apply lookup_lt_Some in Hr. lia.
      * by rewrite <- app_assoc.
  - destruct (serve_flag_cases reqs s0) as [H|H].
    + apply serve_full_cluster in H as [H|(pre & r & post & E & _ & Ha)].
      * unfold s0 in H. simpl in H.
        unfold Coordinator.initial_full_cluster in H. simpl in H.
        by destruct (n =? 0).
      * rewrite (Hsize (pre ++ [r]) post) in Ha by by rewrite <- app_assoc.
        simpl in Ha. injection Ha as ->. destruct Hb.
        rewrite E, !length_app. simpl. lia.
    + rewrite H. unfold s0. simpl. unfold Coordinator.initial_full_cluster. simpl.
      by apply Z.eqb_neq in Hn as ->.
Qed.

Lemma full_cluster_after_distinct_registrations_witness :
  let reg := λ k, Coordinator.Request None (Some (Json.Registration k "h" 80)) in
  Coordinator.full_cluster
    (Coordinator.serve [reg 5; reg 7] (Coordinator.init "driver" (Some 3) false None))
  = Some false
  ∧ Coordinator.full_cluster
      (Coordinator.serve [reg 5; reg 7] (Coordinator.init "driver" (Some (-1)) false None))
    = Some false.
Proof.
  intros reg. split.
  - apply (full_cluster_after_distinct_registrations "driver" 3 false None [reg 5; reg 7]).
    + lia.
    + vm_compute. repeat constructor.
    + compute_done.
  - apply (full_cluster_after_distinct_registrations "driver" (-1) false None
             [reg 5; reg 7]).
    + lia.
    + vm_compute. repeat constructor.
    + compute_done.
Defined.

(** X5.  Whatever requests are served and whatever calls of [shutdown_host]
    and [shutdown_hosts] are made on a coordinator since [__init__]: the
    expectation and the token are those given to [__init__]; the flag is
    [None] exactly when the expectation is [None] or 0; and whenever a
    positive number of partitions is expected and at least that many are
    registered, the flag is [True]. *)
Theorem coordinator_invariants
    (hostname : string) (await : option Z) (verb : bool) (tok : option string)
    (ops : list Coordinator.op) :
  let s := Coordinator.run_ops ops (Coordinator.init hostname await verb tok) in
  Coordinator.await_partitions s = await
  ∧ Coordinator.token s = tok
  ∧ (Coordinator.full_cluster s = None ↔ truthy_int await = false)
  ∧ (∀ n, await = Some n → 0 < n → n ≤ Z.of_nat (size (Coordinator.hosts s)) →
       Coordinator.full_cluster s = Some true).
Proof.
  intros s. subst s.
  set (Inv := λ s : Coordinator.t,
         Coordinator.await_partitions s = await
         ∧ Coordinator.token s = tok
         ∧ (Coordinator.full_cluster s = None ↔ truthy_int await = false)
         ∧ (Coordinator.full_cluster s = Some true
            ∨ ∀ n, await = Some n → 0 < n → Z.of_nat (size (Coordinator.hosts s)) < n)).
  assert (Inv (Coordinator.run_ops ops (Coordinator.init hostname await verb tok))) as H.
  { induction ops as [|o ops IH] using rev_ind.
    - unfold Inv. simpl. split_and!; [done|done| |].
      + unfold Coordinator.initial_full_cluster. by destruct (truthy_int await).
      + right. intros n _ Hn. rewrite map_size_empty. lia.
    - unfold Coordinator.run_ops in *. rewrite foldl_snoc.
      set (s := foldl _ _ ops) in *. clearbody s.
      destruct IH as (Ha & Ht & Hnone & Hcount).
      destruct o as [req|reply ind|net order]; simpl.
      + destruct (register_frame s req) as (Ha' & Ht' & _). simpl in Ha', Ht'.
        pose proof (register_size s req) as Hsz.
        unfold Inv. rewrite Ha', Ht'. split_and!; [done|done| |].
        * destruct (register_cases s req) as [[_ ->]|[(_ & _ & ->)|(j & Hm & Hb & _)]];
            [done|done|].
          destruct (register_accepted s req j Hm Hb) as (_ & -> & _).
          case_bool_decide as Hd; [|done]. split; [done|].
          intros Hf. rewrite <- Ha, Hd in Hf. simpl in Hf.
          apply negb_false_iff, Z.eqb_eq in Hf.
          pose proof (map_size_insert_Some (Json.partition j) (Json.host j, Json.port j)
                        (Coordinator.hosts s)) as Hs1.
          pose proof (map_size_insert_None (Json.partition j) (Json.host j, Json.port j)
                        (Coordinator.hosts s)) as Hs2.
          destruct (Coordinator.hosts s !! Json.partition j) eqn:El.
          { assert (size (Coordinator.hosts s) ≠ 0%nat); [|rewrite Hs1 in Hf by done; lia].
            apply map_size_non_empty_iff. intros He. by rewrite He in El. }
          rewrite Hs2 in Hf by done. lia.
        * destruct (register_cases s req) as [[_ E]|[(_ & _ & E)|(j & Hm & Hb & _)]];
            [by rewrite E|by rewrite E|].
          destruct (register_accepted s req j Hm Hb) as (Hh & Hf & _). simpl in Hh, Hf.
          rewrite Hf. case_bool_decide as Hd; [by left|].
          destruct Hcount as [?|Hcount]; [by left|]. right. intros n Hn Hpos.
          specialize (Hcount n Hn Hpos). rewrite <- Hh in Hd.
          rewrite Ha, Hn in Hd.
          assert (n ≠ Z.of_nat (size (Coordinator.hosts (Coordinator.register req s).1.2)))
            by congruence.
          lia.
      + unfold Inv, Coordinator.shutdown_host.
        destruct (Coordinator.hosts s !! ind) as [hp|] eqn:El; [|done].
        destruct (reply _); [|done]. simpl. split_and!; [done|done|done|].
        destruct Hcount as [?|Hcount]; [by left|]. right. intros n Hn Hpos.
        specialize (Hcount n Hn Hpos). rewrite map_size_delete, El. simpl. lia.
      + unfold Inv, Coordinator.shutdown_hosts.
        destruct (Coordinator.run_threads net order s) as [s1 out] eqn:Er. simpl.
        assert (Coordinator.await_partitions s1 = Coordinator.await_partitions s
                ∧ Coordinator.token s1 = Coordinator.token s) as [Ha1 Ht1].
        { clear -Er. revert s s1 out Er.
          induction order as [|k order IH]; intros s s1 out Er; simpl in Er.
          - by injection Er as <- _.
          - destruct (shutdown_host_frame (net k) k s) as ((h & E & _) & _).
            destruct (Coordinator.shutdown_host (net k) k s) as [[r s2] out1].
            simpl in E. subst s2.
            destruct (Coordinator.run_threads net order _) as [s3 out2] eqn:E3.
            injection Er as <- _. by destruct (IH _ _ _ E3) as [-> ->]. }
        rewrite Ha1, Ht1, Ha. split_and!; [done|done| |].
        * unfold Coordinator.initial_full_cluster. by destruct (truthy_int await).
        * right. intros n _ Hpos. rewrite map_size_empty. lia. }
  destruct H as (Ha & Ht & Hnone & Hcount). split_and!; [done..|].
  intros n Hn Hpos Hle. destruct Hcount as [?|Hcount]; [done|].
  specialize (Hcount n Hn Hpos). lia.
Qed.

(** X6.  [shutdown_host] does not look at the flag again: after a server
    of a registered index answered the shutdown request, [/status] gives one
    partition less and the same [full_cluster] as before, so a cluster that
    was full is still reported full. *)
Theorem shutdown_host_keeps_flag
    (reply : string → post_result) (ind : Z) (s : Coordinator.t)
    (hp : string * Z) (code : Z) :
  Coordinator.hosts s !! ind = Some hp →
  reply (Coordinator.shutdown_url (Coordinator.token s) hp) = Responded code →
  let before := Coordinator.status s in
  let after := Coordinator.status (Coordinator.shutdown_host reply ind s).1.2 in
  Coordinator.st_full_cluster after = Coordinator.st_full_cluster before
  ∧ Coordinator.expected_partitions after = Coordinator.expected_partitions before
  ∧ S (Coordinator.current_partitions after) = Coordinator.current_partitions before.
Proof.
  intros Hl Hr. unfold Coordinator.shutdown_host. rewrite Hl, Hr. simpl.
  split_and!; [done|done|]. rewrite map_size_delete, Hl. simpl.
  assert (size (Coordinator.hosts s) ≠ 0%nat); [|lia].
  apply map_size_non_empty_iff. intros He. by rewrite He in Hl.
Qed.

Lemma shutdown_host_keeps_flag_witness :
  let reg := λ k, Coordinator.Request None (Some (Json.Registration k "h" 80)) in
  let s := Coordinator.serve [reg 0; reg 1]
             (Coordinator.init "driver" (Some 2) false None) in
  Coordinator.status (Coordinator.shutdown_host (λ _, Responded 200) 1 s).1.2
  = Coordinator.Status (Some 2) 1 (Some true).
Proof.
  intros reg s.
  pose proof (shutdown_host_keeps_flag (λ _, Responded 200) 1 s ("h", 80) 200
                eq_refl eq_refl) as (Hf & He & Hc).
  destruct (Coordinator.status _) as [e c f]. simpl in *.
  injection Hc as ->. by rewrite Hf, He.
Defined.

Section Reset.
Implicit Types (s : Coordinator.t) (req : Coordinator.request).

Lemma register_same_registry s1 s2 req :
  Coordinator.same_registry s1 s2 →
  (Coordinator.register req s1).1.1 = (Coordinator.register req s2).1.1
  ∧ Coordinator.same_registry (Coordinator.register req s1).1.2 (Coordinator.register req s2).1.2.
Proof.
  intros (Ha & Ht & Hh & Hf).
  assert (Coordinator.token_mismatch s1 req = Coordinator.token_mismatch s2 req) as Hm.
  { unfold Coordinator.token_mismatch. by rewrite Ht. }
  destruct (register_cases s2 req) as [[Hm2 E2]|[(Hm2 & Hb & E2)|(j & Hm2 & Hb & E2)]].
  - destruct (register_cases s1 req) as [[Hm1 E1]|[(Hm1 & _)|(? & Hm1 & _)]];
      [|congruence..]. by rewrite E1, E2.
  - destruct (register_cases s1 req) as [[Hm1 _]|[(_ & _ & E1)|(? & _ & Hb' & _)]];
      [congruence| |congruence]. by rewrite E1, E2.
  - rewrite Hm2 in Hm.
    destruct (register_accepted s1 req j Hm Hb) as (Hh1 & Hf1 & Ha1 & Ht1 & _).
    destruct (register_accepted s2 req j Hm2 Hb) as (Hh2 & Hf2 & Ha2 & Ht2 & _).
    simpl in *. split.
    + rewrite E2. unfold Coordinator.register. by rewrite Hm, Hb.
    + unfold Coordinator.same_registry. rewrite Hh1, Hh2, Hf1, Hf2, Ha1, Ha2, Ht1, Ht2.
      by rewrite Ha, Ht, Hh, Hf.
Qed.

Lemma serve_same_registry (reqs : list Coordinator.request) s1 s2 :
  Coordinator.same_registry s1 s2 →
  Coordinator.answers reqs s1 = Coordinator.answers reqs s2
  ∧ Coordinator.same_registry (Coordinator.serve reqs s1) (Coordinator.serve reqs s2).
Proof.
  revert s1 s2. induction reqs as [|r reqs IH]; intros s1 s2 H; [done|].
  simpl. destruct (register_same_registry s1 s2 r H) as [-> H'].
  destruct (IH _ _ H') as [-> ?]. done.
Qed.

End Reset.

(** X7.  After [shutdown_hosts] a coordinator takes registrations as a new
    one does: a run of [/register] requests gets the same answers and ends
    with the same registry, the same flag and the same [/status] as on a
    coordinator just made by [__init__] with the same expectation and
    token. *)
Theorem shutdown_hosts_makes_coordinator_as_new
    (net : Z → string → post_result) (order : list Z) (s : Coordinator.t)
    (reqs : list Coordinator.request) :
  let s1 := (Coordinator.shutdown_hosts net order s).1 in
  let s0 := Coordinator.init (Coordinator.host s) (Coordinator.await_partitions s)
              (Coordinator.verbose s) (Coordinator.token s) in
  Coordinator.answers reqs s1 = Coordinator.answers reqs s0
  ∧ Coordinator.hosts (Coordinator.serve reqs s1) = Coordinator.hosts (Coordinator.serve reqs s0)
  ∧ Coordinator.status (Coordinator.serve reqs s1) = Coordinator.status (Coordinator.serve reqs s0).
Proof.
  intros s1 s0.
  assert (Coordinator.same_registry s1 s0) as H.
  { subst s1 s0. unfold Coordinator.shutdown_hosts.
    destruct (Coordinator.run_threads net order s) as [s2 out] eqn:Er.
    assert (Coordinator.await_partitions s2 = Coordinator.await_partitions s
            ∧ Coordinator.token s2 = Coordinator.token s) as [Ha Ht].
    { clear -Er. revert s s2 out Er.
      induction order as [|k order IH]; intros s s2 out Er; simpl in Er.
      - by injection Er as <- _.
      - destruct (shutdown_host_frame (net k) k s) as ((h & E & _) & _).
        destruct (Coordinator.shutdown_host (net k) k s) as [[r s3] out1].
        simpl in E. subst s3.
        destruct (Coordinator.run_threads net order _) as [s4 out2] eqn:E4.
        injection Er as <- _. by destruct (IH _ _ _ E4) as [-> ->]. }
    unfold Coordinator.same_registry. simpl. by rewrite Ha, Ht. }
  destruct (serve_same_registry reqs s1 s0 H) as (Hans & Ha & _ & Hh & Hf).
  split_and!; [done|done|]. unfold Coordinator.status. by rewrite Ha, Hh, Hf.
Qed.

(** X8.  A coordinator made with [verbose=False] prints nothing when it
    serves [/register]: all the route does to the outside is the call of
    the observer, if one is set and the request goes through. *)
Theorem quiet_coordinator_prints_nothing
    (req : Coordinator.request) (s : Coordinator.t) :
  Coordinator.verbose s = false →
  let out := (Coordinator.register req s).2 in
  (∀ line, Coordinator.Print line ∉ out)
  ∧ (length out ≤ 1)%nat
  ∧ (Coordinator.register_callback s = None → out = []).
Proof.
  intros Hv out. subst out. unfold Coordinator.register.
  destruct (Coordinator.token_mismatch s req).
  { simpl. split_and!; [by intros ? ?%elem_of_nil|lia|done]. }
  destruct (Coordinator.body req) as [j|].
  2:{ simpl. split_and!; [by intros ? ?%elem_of_nil|lia|done]. }
  simpl. rewrite Hv. simpl.
  destruct (bool_decide _); simpl; rewrite ?Hv; simpl;
    destruct (Coordinator.register_callback s); simpl;
    (split_and!; [absent_from_trace|lia|done]).
Qed.

Lemma quiet_coordinator_prints_nothing_witness :
  (Coordinator.register
     (Coordinator.Request None (Some (Json.Registration 0 "h" 80)))
     (Coordinator.init "driver" (Some 1) false None)).2 = [].
Proof.
  apply (quiet_coordinator_prints_nothing
           (Coordinator.Request None (Some (Json.Registration 0 "h" 80)))
           (Coordinator.init "driver" (Some 1) false None)); reflexivity.
Defined.

(** ** The partition server, further *)

(** X9.  Whenever a partition server gets to serve, it serves on the port
    it has just registered, under the partition index it was called with
    and the host name of the executor; that port is the one given to
    [__init__] if one was given and the open port found otherwise, and it is
    the port the object holds after the call. *)
Theorem worker_serves_on_registered_port
    (env : PartitionServer.world) (ind : Z) (w : PartitionServer.t) (p : Z) :
  let w' := (PartitionServer.__call__ env ind w).1.2 in
  let out := (PartitionServer.__call__ env ind w).2 in
  PartitionServer.Serve p ∈ out →
  p = default (PartitionServer.get_open_port env) (PartitionServer.port w)
  ∧ PartitionServer.port w' = Some p
  ∧ ∃ url, PartitionServer.Post url
             {| Json.partition := ind;
                Json.host := PartitionServer.get_host env;
                Json.port := p |} ∈ out.
Proof.
  intros w' out Hs.
  destruct (call_trace env ind w) as
    [(_ & Hno & _)|(pre & base & status & _ & _ & Hout & Hpre & _)].
  { by destruct (Hno p). }
  fold out in Hout. rewrite Hout in Hs.
  apply elem_of_app in Hs as [Hs|Hs]; [by destruct (Hpre p)|].
  apply elem_of_cons in Hs as [Hs|Hs%list_elem_of_singleton]; [done|].
  injection Hs as ->. simpl. split_and!.
  - done.
  - subst w'. unfold PartitionServer.__call__.
    by destruct (PartitionServer._launch_server _ _) as [[]].
  - eexists. rewrite Hout. apply elem_of_app. right. by left.
Qed.

Lemma worker_serves_on_registered_port_witness :
  let w := PartitionServer.set_coordinator_url "http://driver:5000"
             (PartitionServer.init PartitionServer.Flask (Some 7000) true None None) in
  let env := PartitionServer.World "worker" 9000 (λ _ _, Responded 200) None in
  PartitionServer.port (PartitionServer.__call__ env 3 w).1.2 = Some 7000.
Proof.
  intros w env.
  apply (worker_serves_on_registered_port env 3 w 7000).
  vm_compute. do 6 right. left.
Defined.

(** X10.  [__call__] returns only after having served, and what it returns
    is the empty list. *)
Theorem worker_returns_empty_list_after_serving
    (env : PartitionServer.world) (ind : Z) (w : PartitionServer.t) (l : list Z) :
  (PartitionServer.__call__ env ind w).1.1 = Returned l →
  l = []
  ∧ PartitionServer.serving (PartitionServer.__call__ env ind w).2
  ∧ PartitionServer.cls w = PartitionServer.Flask.
Proof.
  intros Hr.
  destruct (call_trace env ind w) as
    [([e He] & _)|(pre & base & status & _ & _ & Hout & _)].
  { rewrite He in Hr. done. }
  split_and!.
  - revert Hr. unfold PartitionServer.__call__.
    destruct (PartitionServer._launch_server _ _) as [[]]; simpl; [|done..].
    by intros [= <-].
  - rewrite Hout. eexists. apply elem_of_app. right. right. by left.
  - revert Hr. unfold PartitionServer.__call__, PartitionServer._launch_server.
    destruct w as [[] ? ? ? ? ? ? ? ? ?]; simpl; done.
Qed.

Lemma worker_returns_empty_list_after_serving_witness :
  let w := PartitionServer.set_coordinator_url "http://driver:5000"
             (PartitionServer.init PartitionServer.Flask None false None None) in
  let env := PartitionServer.World "worker" 9000 (λ _ _, Responded 200) None in
  PartitionServer.serving (PartitionServer.__call__ env 3 w).2.
Proof.
  intros w env.
  apply (worker_returns_empty_list_after_serving env 3 w []). reflexivity.
Defined.

(** X11.  An [AttributeError] raised inside the [init_partition] method of
    a subclass is dropped: the call goes on exactly as if the method had
    returned.  Any other exception from that method, and any exception at
    all from the init function given to [__init__], leaves [__call__]
    before anything is posted or served. *)
Theorem init_partition_attribute_error_is_dropped
    (env : PartitionServer.world) (ind : Z)
    (port : option Z) (tok curl : option string) (pind : option Z)
    (host : option string) (bp : bool) (cb : option PartitionServer.hook) :
  let flask fn meth :=
    PartitionServer.Make PartitionServer.Flask port tok curl pind host bp fn meth cb in
  let call w := PartitionServer.__call__ env ind w in
  ((call (flask None (Some (Some AttributeError)))).1.1 = (call (flask None (Some None))).1.1
   ∧ (call (flask None (Some (Some AttributeError)))).2 = (call (flask None (Some None))).2)
  ∧ (∀ e, e ≠ AttributeError →
       (call (flask None (Some (Some e)))).1.1 = Raised e
       ∧ (∀ p, PartitionServer.Serve p ∉ (call (flask None (Some (Some e)))).2)
       ∧ (∀ u js, PartitionServer.Post u js ∉ (call (flask None (Some (Some e)))).2))
  ∧ (∀ e meth,
       (call (flask (Some (Some e)) meth)).1.1 = Raised e
       ∧ (∀ p, PartitionServer.Serve p ∉ (call (flask (Some (Some e)) meth)).2)
       ∧ (∀ u js, PartitionServer.Post u js ∉ (call (flask (Some (Some e)) meth)).2)).
Proof.
  intros flask call. subst flask call.
  unfold PartitionServer.__call__, PartitionServer._launch_server,
    PartitionServer._init_partition, PartitionServer._register. simpl. split_and!.
  - destruct curl as [base|]; simpl; [|done].
    destruct (PartitionServer.post env _ _); simpl; [|done].
    by destruct (PartitionServer.app_run env).
  - destruct curl as [base|]; simpl; [|done].
    destruct (PartitionServer.post env _ _); simpl; [|done].
    by destruct (PartitionServer.app_run env).
  - intros e He. destruct e; try done; simpl;
      (split_and!; [done|absent_from_trace|absent_from_trace]).
  - intros e meth. simpl. split_and!; [done|absent_from_trace|absent_from_trace].
Qed.

(** X12.  A partition server whose coordinator url was never set posts
    nothing and never serves: an exception leaves [__call__]. *)
Theorem worker_without_coordinator_url_fails
    (env : PartitionServer.world) (ind : Z) (w : PartitionServer.t) :
  PartitionServer.coordinator_url w = None →
  let r := (PartitionServer.__call__ env ind w).1.1 in
  let out := (PartitionServer.__call__ env ind w).2 in
  (∃ e, r = Raised e)
  ∧ (∀ p, PartitionServer.Serve p ∉ out)
  ∧ (∀ u js, PartitionServer.Post u js ∉ out)
  ∧ (PartitionServer.cls w = PartitionServer.Flask →
     PartitionServer._init_partition_fn w = None →
     PartitionServer.init_partition w = None →
     r = Raised AttributeError).
Proof.
  intros Hu r out. subst r out.
  unfold PartitionServer.__call__, PartitionServer._launch_server,
    PartitionServer._init_partition, PartitionServer._register.
  destruct w as [cls port tok curl pind host bp fn meth cb]. simpl in *. subst curl.
  destruct cls; simpl.
  { split_and!; [by eexists|absent_from_trace|absent_from_trace|done]. }
  destruct fn as [[e|]|]; [| |destruct meth as [[e|]|]; [destruct e| |]]; simpl;
    destruct bp; simpl;
    (split_and!; [by eexists|absent_from_trace|absent_from_trace|done]).
Qed.

Lemma worker_without_coordinator_url_fails_witness :
  (PartitionServer.__call__
     (PartitionServer.World "worker" 9000 (λ _ _, Responded 200) None) 0
     (PartitionServer.init PartitionServer.Flask None false None None)).1.1
  = Raised AttributeError.
Proof.
  apply (worker_without_coordinator_url_fails
           (PartitionServer.World "worker" 9000 (λ _ _, Responded 200) None) 0
           (PartitionServer.init PartitionServer.Flask None false None None));
    reflexivity.
Defined.

(** ** The [/control/shutdown] routes *)

(** X13.  The [/control/shutdown] route of a partition server: the server is
    told to stop exactly when the token test passes, the shutdown observer
    (if any) does not raise and the request runs under Werkzeug; the
    observer is called exactly when the token test passes and an observer
    is set, and always before the server is told to stop; so without
    Werkzeug the observer has run although the route then fails and the
    server goes on. *)
Theorem worker_shutdown_route
    (req : Control.request) (w : PartitionServer.t) :
  let passes := negb (truthy_str (PartitionServer.token w)
                      && negb (bool_decide (PartitionServer.token w = Control.arg_token req))) in
  let r := (PartitionServer.shutdown_server req w).1 in
  let out := (PartitionServer.shutdown_server req w).2 in
  (passes = false → r = Returned (Control.Status 403) ∧ out = [])
  ∧ (Control.StopServer ∈ out ↔
       passes = true ∧ Control.werkzeug req = true
       ∧ ∀ e, PartitionServer.shutdown_callback w ≠ Some (Some e))
  ∧ (Control.CallShutdownCallback ∈ out ↔
       passes = true ∧ PartitionServer.shutdown_callback w ≠ None)
  ∧ (Control.StopServer ∈ out → PartitionServer.shutdown_callback w ≠ None →
       out = [Control.CallShutdownCallback; Control.StopServer])
  ∧ (Control.StopServer ∈ out → r = Returned (Control.Text "Server shutting down..."))
  ∧ (passes = true → Control.werkzeug req = false →
     (∀ e, PartitionServer.shutdown_callback w ≠ Some (Some e)) →
     r = Raised (OtherError "RuntimeError")).
Proof.
  intros passes r out. subst passes r out. unfold PartitionServer.shutdown_server.
  destruct (truthy_str _ && _); simpl.
  { split_and!; try done.
    - split; [by intros ?%elem_of_nil|by intros [? _]].
    - split; [by intros ?%elem_of_nil|by intros [? _]].
    - by intros ?%elem_of_nil.
    - by intros ?%elem_of_nil. }
  destruct (PartitionServer.shutdown_callback w) as [[e|]|];
    destruct (Control.werkzeug req); simpl.
  all: split_and!; try done.
  all: rewrite ?elem_of_cons, ?elem_of_nil.
  all: try (split; [intros H|intros (_ & H1 & H2); try (by destruct (H2 e))]).
  all: try (split; [intros H|intros (_ & H1)]).
  all: try intros H.
  all: try (destruct H as [H|[H|H]]; done).
  all: try (destruct H as [H|H]; done).
  all: try (by left); try (right; by left).
  all: try (intros _ H'; by destruct (H' e)).
  all: try (split_and!; [done..|intros ?; done]).
  all: try done.
Qed.

(** ** The cluster, further *)

Section Barrier.
Implicit Types (co : Coordinator.t) (arr : list (list Coordinator.request)).

(** A run of requests changes the registry and the flag and nothing else. *)
Lemma serve_shape (reqs : list Coordinator.request) co :
  ∃ h f, Coordinator.serve reqs co
         = Coordinator.set_full_cluster f (Coordinator.set_hosts h co).
Proof.
  revert co. induction reqs as [|r reqs IH]; intros co.
  - exists (Coordinator.hosts co), (Coordinator.full_cluster co). by destruct co.
  - simpl. destruct (IH (Coordinator.register r co).1.2) as (h & f & ->).
    exists h, f. unfold Coordinator.register.
    destruct (Coordinator.token_mismatch co r); [done|].
    destruct (Coordinator.body r); [|done]. simpl. by destruct (bool_decide _).
Qed.

(** The barrier of [start(await_hosts=True)] ends, if it does, after some
    batches of requests, at the first look that finds the flag set. *)
Lemma barrier_spec arr co :
  let r := (Cluster.barrier true arr co).1.1 in
  let co' := (Cluster.barrier true arr co).1.2 in
  (∃ k, (k ≤ length arr)%nat ∧ co' = Coordinator.serve (concat (take k arr)) co)
  ∧ ((r = Returned () ∧ Coordinator.full_cluster co' = Some true)
     ∨ (r = Hangs ∧ Coordinator.full_cluster co' ≠ Some true)).
Proof.
  revert co. induction arr as [|b arr IH]; intros co; simpl.
  - destruct (Coordinator.full_cluster co) as [[]|] eqn:Ef; simpl;
      (split; [exists 0%nat; by split|]); rewrite ?Ef; [by left|by right..].
  - destruct (Coordinator.full_cluster co) as [[]|] eqn:Ef; simpl.
    + split; [exists 0%nat; split; [lia|done]|]. by left.
    + destruct (IH (Coordinator.serve b co)) as ((k & Hk & E) & H).
      destruct (Cluster.barrier true arr _) as [[r co1] out]. simpl in *.
      split; [|done]. exists (S k). split; [lia|]. simpl. by rewrite serve_app.
    + destruct (IH (Coordinator.serve b co)) as ((k & Hk & E) & H).
      destruct (Cluster.barrier true arr _) as [[r co1] out]. simpl in *.
      split; [|done]. exists (S k). split; [lia|]. simpl. by rewrite serve_app.
Qed.

(** Without [await_hosts] there is no wait. *)
Lemma barrier_false arr co : Cluster.barrier false arr co = (Returned (), co, []).
Proof. by destruct arr. Qed.

(** If the requests that arrive set the flag, the barrier ends. *)
Lemma barrier_returns arr co :
  Coordinator.full_cluster (Coordinator.serve (concat arr) co) = Some true →
  (Cluster.barrier true arr co).1.1 = Returned ().
Proof.
  revert co. induction arr as [|b arr IH]; intros co H; simpl in *.
  - by rewrite H.
  - destruct (Coordinator.full_cluster co) as [[]|] eqn:Ef; simpl; [done| |].
    + rewrite serve_app in H. specialize (IH _ H).
      by destruct (Cluster.barrier true arr _) as [[r co1] out].
    + rewrite serve_app in H. specialize (IH _ H).
      by destruct (Cluster.barrier true arr _) as [[r co1] out].
Qed.

(** [start] on a cluster that is not active, with both executor settings
    present, written out. *)
Lemma start_inactive (env : Cluster.world) (aw : bool) (c : Cluster.t) (i k : Z) :
  Cluster.is_active c = false →
  Cluster.executor_instances (Cluster.sc c) = Some i →
  Cluster.executor_cores (Cluster.sc c) = Some k →
  let tok := Some (Cluster.hexlify (Cluster.urandom env)) in
  let co0 := Coordinator.set_port (Some (Cluster.get_open_port env))
               (Coordinator.set_daemon true
                  (Coordinator.init (Cluster.get_host env)
                     (Some (Cluster.getNumPartitions (Cluster.rdd c)))
                     (Cluster.verbose c) tok)) in
  let ps := PartitionServer.set_token tok
              (PartitionServer.set_coordinator_url
                 (http_url (Cluster.get_host env) (Cluster.get_open_port env))
                 (Cluster.partition_server c)) in
  (Cluster.start env aw c).1.1 = (Cluster.barrier aw (Cluster.arrivals env) co0).1.1
  ∧ (Cluster.start env aw c).1.2
    = Cluster.Make (Cluster.sc c) (Cluster.rdd c) ps (Cluster.cache_result c)
        (Cluster.verbose c)
        (Some (Cluster.barrier aw (Cluster.arrivals env) co0).1.2) true tok
        (Some (Cluster.MapJob (Cluster.rdd c) ps (Cluster.cache_result c) true)).
Proof.
  intros Ha Hi Hk tok co0 ps. unfold Cluster.start. rewrite Ha. simpl.
  rewrite Hi, Hk. simpl. fold tok co0.
  by destruct (Cluster.barrier aw (Cluster.arrivals env) co0) as [[r co1] out].
Qed.

End Barrier.

(** X14.  [start] on a cluster that is not active, with both executor
    settings present: the call returns or waits for ever at the barrier
    (and returns when [await_hosts] is false); either way the cluster is
    then active, and the cluster, the coordinator and the partition server
    hold the same new token, the coordinator expects as many partitions as
    the RDD has, and the partition server holds the url of the
    coordinator. *)
Theorem start_builds_cluster
    (env : Cluster.world) (aw : bool) (c : Cluster.t) (i k : Z) :
  Cluster.is_active c = false →
  Cluster.executor_instances (Cluster.sc c) = Some i →
  Cluster.executor_cores (Cluster.sc c) = Some k →
  let r := (Cluster.start env aw c).1.1 in
  let c' := (Cluster.start env aw c).1.2 in
  let tok := Some (Cluster.hexlify (Cluster.urandom env)) in
  (r = Returned () ∨ r = Hangs)
  ∧ (aw = false → r = Returned ())
  ∧ Cluster.is_active c' = true
  ∧ Cluster.token c' = tok
  ∧ PartitionServer.token (Cluster.partition_server c') = tok
  ∧ ∃ co, Cluster.coordinator c' = Some co
      ∧ Coordinator.token co = tok
      ∧ Coordinator.await_partitions co = Some (Cluster.getNumPartitions (Cluster.rdd c))
      ∧ Coordinator.get_url co
        = Some (http_url (Cluster.get_host env) (Cluster.get_open_port env))
      ∧ PartitionServer.coordinator_url (Cluster.partition_server c')
        = Coordinator.get_url co
      ∧ (aw = false → Coordinator.hosts co = ∅).
Proof.
  intros Ha Hi Hk r c' tok. subst r c'.
  destruct (start_inactive env aw c i k Ha Hi Hk) as [Er Ec]. cbv zeta in Er, Ec.
  rewrite Er, Ec. clear Er Ec. fold tok.
  set (co0 := Coordinator.set_port _ _).
  destruct aw.
  - destruct (barrier_spec (Cluster.arrivals env) co0) as ((n & _ & E) & Hr).
    cbv zeta in E, Hr.
    destruct (serve_shape (concat (take n (Cluster.arrivals env))) co0) as (h & f & Es).
    rewrite Es in E.
    destruct (Cluster.barrier true (Cluster.arrivals env) co0) as [[r co1] out].
    simpl in *. subst co1.
    split_and!; [by destruct Hr as [[-> _]|[-> _]]; [left|right]|done..|].
    eexists. by split_and!.
  - rewrite barrier_false. simpl. split_and!; [by left|done..|]. eexists. by split_and!.
Qed.

Lemma start_builds_cluster_witness :
  let env := Cluster.World [222; 173; 190; 239; 0; 1; 2; 3; 4; 5] "driver" 5000 [] in
  let c := Cluster.init (Cluster.Conf (Some 2) (Some 4)) (Cluster.Rdd 3 17)
             None false false in
  Cluster.is_active (Cluster.start env false c).1.2 = true.
Proof.
  intros env c.
  apply (start_builds_cluster env false c 2 4); reflexivity.
Defined.

(** X15.  [start] with an executor setting missing from the Spark
    configuration raises [TypeError] after the token has been replaced: the
    cluster is still not active and has the coordinator it had, but its
    token is the new one, and nothing was started. *)
Theorem start_fails_without_executor_settings
    (env : Cluster.world) (aw : bool) (c : Cluster.t) :
  Cluster.is_active c = false →
  Cluster.executor_instances (Cluster.sc c) = None
  ∨ Cluster.executor_cores (Cluster.sc c) = None →
  Cluster.start env aw c
  = (Raised TypeError,
     Cluster.set_token (Some (Cluster.hexlify (Cluster.urandom env))) c, [])
  ∧ Cluster.is_active (Cluster.start env aw c).1.2 = false
  ∧ Cluster.coordinator (Cluster.start env aw c).1.2 = Cluster.coordinator c.
Proof.
  intros Ha Hc. unfold Cluster.start. rewrite Ha. simpl.
  destruct (Cluster.executor_instances (Cluster.sc c)) as [i|],
    (Cluster.executor_cores (Cluster.sc c)) as [k|]; simpl;
    try done; by destruct Hc.
Qed.

Lemma start_fails_without_executor_settings_witness :
  let env := Cluster.World [222; 173; 190; 239; 0; 1; 2; 3; 4; 5] "driver" 5000 [] in
  let c := Cluster.init (Cluster.Conf (Some 2) None) (Cluster.Rdd 3 17)
             None false false in
  Cluster.token (Cluster.start env true c).1.2 = Some "deadbeef000102030405"
  ∧ Cluster.is_active (Cluster.start env true c).1.2 = false.
Proof.
  intros env c.
  destruct (start_fails_without_executor_settings env true c eq_refl
              (or_intror eq_refl)) as (E & Hact & _).
  split; [|exact Hact]. rewrite E. reflexivity.
Defined.

Section Await.
Implicit Types (co : Coordinator.t) (reqs : list Coordinator.request).

Lemma serve_size_mono reqs co :
  (size (Coordinator.hosts co) ≤ size (Coordinator.hosts (Coordinator.serve reqs co)))%nat.
Proof.
  revert co. induction reqs as [|r reqs IH]; intros co; simpl; [lia|].
  pose proof (register_size co r). specialize (IH (Coordinator.register r co).1.2). lia.
Qed.

(** A request that is answered 200 leaves a registry that is not empty. *)
Lemma register_accepted_size co (r : Coordinator.request) :
  (Coordinator.register r co).1.1 = Coordinator.R200 →
  (1 ≤ size (Coordinator.hosts (Coordinator.register r co).1.2))%nat.
Proof.
  intros H%register_answer_accepts. rewrite register_hosts.
  destruct (Coordinator.body r) as [j|] eqn:Eb.
  - rewrite H.
    assert (size (<[Json.partition j:=(Json.host j, Json.port j)]> (Coordinator.hosts co))
            ≠ 0%nat); [|lia].
    apply map_size_non_empty_iff, insert_non_empty.
  - unfold Coordinator.accepts in H. rewrite Eb in H.
    apply andb_true_iff in H as [_ H%bool_decide_eq_true]. by destruct H.
Qed.

(** If a run of requests sets the flag, a positive number of partitions is
    expected and at least that many are registered at the end of the run. *)
Lemma serve_full_count reqs co :
  Coordinator.full_cluster co ≠ Some true →
  Coordinator.full_cluster (Coordinator.serve reqs co) = Some true →
  ∃ n, Coordinator.await_partitions co = Some n
       ∧ 0 < n ≤ Z.of_nat (size (Coordinator.hosts (Coordinator.serve reqs co))).
Proof.
  intros Hno [?|(pre & r & post & -> & Hr & Ha)]%serve_full_cluster; [done|].
  eexists. split; [exact Ha|].
  rewrite serve_app in Ha |- *. simpl in Ha |- *.
  pose proof (register_accepted_size _ _ Hr).
  pose proof (serve_size_mono post (Coordinator.register r (Coordinator.serve pre co)).1.2).
  rewrite (serve_app pre (r :: post)). simpl. lia.
Qed.

End Await.

(** X16.  When [start(await_hosts=True)], called on a cluster that is not
    active with both executor settings present, returns, the coordinator
    has [full_cluster] at [True], the RDD has a positive number of
    partitions and at least that many partition indices are registered.
    No exception leaves such a call. *)
Theorem start_await_hosts_returns_with_full_cluster
    (env : Cluster.world) (c : Cluster.t) (i k : Z) :
  Cluster.is_active c = false →
  Cluster.executor_instances (Cluster.sc c) = Some i →
  Cluster.executor_cores (Cluster.sc c) = Some k →
  let r := (Cluster.start env true c).1.1 in
  let c' := (Cluster.start env true c).1.2 in
  (∀ e, r ≠ Raised e)
  ∧ (r = Returned () →
     ∃ co, Cluster.coordinator c' = Some co
       ∧ Coordinator.full_cluster co = Some true
       ∧ 0 < Cluster.getNumPartitions (Cluster.rdd c)
           ≤ Z.of_nat (size (Coordinator.hosts co))).
Proof.
  intros Ha Hi Hk r c'. subst r c'.
  destruct (start_inactive env true c i k Ha Hi Hk) as [Er Ec]. cbv zeta in Er, Ec.
  rewrite Er, Ec. clear Er Ec.
  set (co0 := Coordinator.set_port _ _).
  destruct (barrier_spec (Cluster.arrivals env) co0) as ((n & _ & E) & Hr).
  cbv zeta in E, Hr.
  destruct (Cluster.barrier true (Cluster.arrivals env) co0) as [[r co1] out].
  simpl in *. split.
  - intros e. by destruct Hr as [[-> _]|[-> _]].
  - intros ->. destruct Hr as [[_ Hf]|[? _]]; [|done].
    eexists. split; [done|]. split; [done|]. subst co1.
    destruct (serve_full_count (concat (take n (Cluster.arrivals env))) co0)
      as (m & Hm & Hle); [|done|].
    + subst co0. simpl. unfold Coordinator.initial_full_cluster.
      by destruct (truthy_int _).
    + subst co0. simpl in Hm. by injection Hm as <-.
Qed.

Lemma start_await_hosts_returns_with_full_cluster_witness :
  let reg := λ p, Coordinator.Request (Some "deadbeef000102030405")
                    (Some (Json.Registration p "worker" (9000 + p))) in
  let env := Cluster.World [222; 173; 190; 239; 0; 1; 2; 3; 4; 5] "driver" 5000
               [[reg 1]; [reg 0; reg 1]; [reg 2]] in
  let c := Cluster.init (Cluster.Conf (Some 2) (Some 4)) (Cluster.Rdd 2 17)
             None false false in
  ∃ co, Cluster.coordinator (Cluster.start env true c).1.2 = Some co
        ∧ Coordinator.full_cluster co = Some true.
Proof.
  intros reg env c.
  destruct (start_await_hosts_returns_with_full_cluster env c 2 4
              eq_refl eq_refl eq_refl) as [_ H].
  destruct (H eq_refl) as (co & Hco & Hf & _). by exists co.
Defined.

(** X17.  For an RDD without partitions, [start(await_hosts=True)] never
    returns, whatever requests reach the coordinator: the flag it waits
    for cannot be set. *)
Theorem start_await_hosts_hangs_without_partitions
    (env : Cluster.world) (c : Cluster.t) (i k : Z) :
  Cluster.is_active c = false →
  Cluster.executor_instances (Cluster.sc c) = Some i →
  Cluster.executor_cores (Cluster.sc c) = Some k →
  Cluster.getNumPartitions (Cluster.rdd c) ≤ 0 →
  (Cluster.start env true c).1.1 = Hangs
  ∧ Cluster.is_active (Cluster.start env true c).1.2 = true.
Proof.
  intros Ha Hi Hk Hn.
  destruct (start_inactive env true c i k Ha Hi Hk) as [Er Ec]. cbv zeta in Er, Ec.
  split; [|by rewrite Ec]. rewrite Er. clear Er Ec.
  set (co0 := Coordinator.set_port _ _).
  destruct (barrier_spec (Cluster.arrivals env) co0) as ((n & _ & E) & Hr).
  cbv zeta in E, Hr. destruct Hr as [[_ Hf]|[? _]]; [|done].
  rewrite E in Hf.
  destruct (serve_full_count (concat (take n (Cluster.arrivals env))) co0)
    as (m & Hm & Hle); [|done|].
  - subst co0. simpl. unfold Coordinator.initial_full_cluster.
    by destruct (truthy_int _).
  - subst co0. simpl in Hm. injection Hm as <-. lia.
Qed.

Lemma start_await_hosts_hangs_without_partitions_witness :
  let reg := λ p, Coordinator.Request (Some "deadbeef000102030405")
                    (Some (Json.Registration p "worker" (9000 + p))) in
  let env := Cluster.World [222; 173; 190; 239; 0; 1; 2; 3; 4; 5] "driver" 5000
               [[reg 0]; [reg 1]] in
  let c := Cluster.init (Cluster.Conf (Some 2) (Some 4)) (Cluster.Rdd 0 17)
             None false false in
  (Cluster.start env true c).1.1 = Hangs.
Proof.
  intros reg env c.
  apply (start_await_hosts_hangs_without_partitions env c 2 4);
    [reflexivity..|simpl; lia].
Defined.

Section Liveness.
Implicit Types (co : Coordinator.t) (reqs : list Coordinator.request).

(** Requests that present the coordinator's token with a readable body are
    all answered 200. *)
Lemma answers_with_token reqs co :
  Forall (λ r, Coordinator.arg_token r = Coordinator.token co
               ∧ is_Some (Coordinator.body r)) reqs →
  Forall (λ a, a = Coordinator.R200) (Coordinator.answers reqs co).
Proof.
  revert co. induction reqs as [|r reqs IH]; intros co H; simpl; [done|].
  apply Forall_cons in H as [[Ht Hb] H]. apply Forall_cons. split.
  - apply register_answer_accepts. unfold Coordinator.accepts, Coordinator.token_mismatch.
    rewrite Ht, bool_decide_eq_true_2 by done. simpl. rewrite andb_false_r. simpl.
    by apply bool_decide_eq_true.
  - apply IH. destruct (register_frame co r) as (_ & Ht' & _). simpl in Ht'.
    by rewrite Ht'.
Qed.

(** On an empty registry, accepted requests for distinct indices set the
    flag once as many have been served as are expected. *)
Lemma serve_distinct_sets_flag reqs co (n : Z) :
  Coordinator.await_partitions co = Some n →
  Coordinator.hosts co = ∅ →
  Forall (λ a, a = Coordinator.R200) (Coordinator.answers reqs co) →
  NoDup (Coordinator.partitions reqs) →
  0 < n ≤ Z.of_nat (length reqs) →
  Coordinator.full_cluster (Coordinator.serve reqs co) = Some true.
Proof.
  intros Ha Hh Hok Hnd Hn. apply serve_full_cluster. right.
  destruct (lookup_lt_is_Some_2 reqs (Z.to_nat (n - 1))) as [r Hr]; [lia|].
  exists (take (Z.to_nat (n - 1)) reqs), r, (drop (S (Z.to_nat (n - 1))) reqs).
  pose proof (take_drop_middle reqs _ r Hr) as Hsplit.
  split_and!; [done| |].
  - rewrite <- Hsplit, answers_app in Hok. apply Forall_app in Hok as [_ Hok].
    simpl in Hok. by apply Forall_cons in Hok as [? _].
  - rewrite Ha. f_equal.
    assert (reqs = (take (Z.to_nat (n - 1)) reqs ++ [r])
                   ++ drop (S (Z.to_nat (n - 1))) reqs) as Hsplit'.
    { by rewrite <- app_assoc. }
    rewrite Hsplit' in Hok, Hnd.
    rewrite answers_app in Hok. apply Forall_app in Hok as [Hok _].
    rewrite partitions_app in Hnd. apply NoDup_app in Hnd as (Hnd & _ & _).
    rewrite serve_size; [|done|done|].
    + rewrite Hh, map_size_empty, length_app, length_take. simpl.
      apply lookup_lt_Some in Hr. lia.
    + intros p _. by rewrite Hh.
Qed.

End Liveness.

(** X18.  [start(await_hosts=True)] returns once every partition has
    registered: on a cluster that is not active, for an RDD with a positive
    number [n] of partitions, if the requests that reach the coordinator
    all present the cluster's new token with a readable body, have pairwise
    distinct partition indices and are at least [n], the call returns and
    the coordinator reports a full cluster. *)
Theorem start_await_hosts_returns_once_all_registered
    (env : Cluster.world) (c : Cluster.t) (i k : Z) :
  Cluster.is_active c = false →
  Cluster.executor_instances (Cluster.sc c) = Some i →
  Cluster.executor_cores (Cluster.sc c) = Some k →
  Forall (λ r, Coordinator.arg_token r = Some (Cluster.hexlify (Cluster.urandom env))
               ∧ is_Some (Coordinator.body r))
         (concat (Cluster.arrivals env)) →
  NoDup (Coordinator.partitions (concat (Cluster.arrivals env))) →
  0 < Cluster.getNumPartitions (Cluster.rdd c)
      ≤ Z.of_nat (length (concat (Cluster.arrivals env))) →
  (Cluster.start env true c).1.1 = Returned ()
  ∧ ∃ co, Cluster.coordinator (Cluster.start env true c).1.2 = Some co
          ∧ Coordinator.full_cluster co = Some true.
Proof.
  intros Ha Hi Hk Htok Hnd Hn.
  destruct (start_inactive env true c i k Ha Hi Hk) as [Er Ec]. cbv zeta in Er, Ec.
  rewrite Er, Ec. clear Er Ec.
  set (co0 := Coordinator.set_port _ _).
  assert ((Cluster.barrier true (Cluster.arrivals env) co0).1.1 = Returned ()) as Hret.
  { apply barrier_returns.
    apply (serve_distinct_sets_flag _ co0 (Cluster.getNumPartitions (Cluster.rdd c)));
      [done|done| |done|done].
    by apply answers_with_token. }
  split; [done|].
  destruct (barrier_spec (Cluster.arrivals env) co0) as (_ & [[_ Hf]|[Hh _]]).
  - eexists. by split.
  - cbv zeta in Hh. by rewrite Hret in Hh.
Qed.

Lemma start_await_hosts_returns_once_all_registered_witness :
  let reg := λ p, Coordinator.Request (Some "deadbeef000102030405")
                    (Some (Json.Registration p "worker" (9000 + p))) in
  let env := Cluster.World [222; 173; 190; 239; 0; 1; 2; 3; 4; 5] "driver" 5000
               [[reg 1]; []; [reg 0; reg 2]] in
  let c := Cluster.init (Cluster.Conf (Some 2) (Some 4)) (Cluster.Rdd 3 17)
             None false false in
  (Cluster.start env true c).1.1 = Returned ().
Proof.
  intros reg env c.
  apply (start_await_hosts_returns_once_all_registered env c 2 4).
  - reflexivity.
  - reflexivity.
  - reflexivity.
  - vm_compute. repeat constructor; by eexists.
  - compute_done.
  - vm_compute. split; [reflexivity|]. discriminate.
Defined.

Section Token.

Lemma hex_digit_length (n : Z) : String.length (Cluster.hex_digit n) = 1%nat.
Proof.
  unfold Cluster.hex_digit. destruct n as [|p|p]; [done| |done].
  repeat (try done; destruct p as [p|p|]).
Qed.

Lemma append_length (a b : string) :
  String.length (a +:+ b) = (String.length a + String.length b)%nat.
Proof.
  induction a as [|x a IH]; [done|].
  change (S (String.length (a +:+ b)) = S (String.length a + String.length b)).
  by rewrite IH.
Qed.

Lemma hexlify_length (bs : list Z) :
  String.length (Cluster.hexlify bs) = (2 * length bs)%nat.
Proof.
  induction bs as [|b bs IH]; [done|].
  change (Cluster.hexlify (b :: bs))
    with (Cluster.hex_digit (b `div` 16) +:+ Cluster.hex_digit (b `mod` 16)
          +:+ Cluster.hexlify bs).
  rewrite !append_length, !hex_digit_length, IH. simpl. lia.
Qed.

Lemma hexlify_truthy (bs : list Z) :
  bs ≠ [] → truthy_str (Some (Cluster.hexlify bs)) = true.
Proof.
  intros Hbs. simpl. pose proof (hexlify_length bs) as Hl.
  destruct (Cluster.hexlify bs) eqn:E; [|done].
  destruct bs; [done|]. simpl in Hl. lia.
Qed.

End Token.

(** X19.  A cluster started with a byte string from [os.urandom] that is
    not empty has a token of twice as many characters, and its coordinator
    enforces it: a [/register] request that presents no token or another
    one is answered 403 and changes nothing. *)
Theorem started_cluster_enforces_token
    (env : Cluster.world) (aw : bool) (c : Cluster.t) (i k : Z) :
  Cluster.is_active c = false →
  Cluster.executor_instances (Cluster.sc c) = Some i →
  Cluster.executor_cores (Cluster.sc c) = Some k →
  Cluster.urandom env ≠ [] →
  let c' := (Cluster.start env aw c).1.2 in
  ∃ t co, Cluster.token c' = Some t
    ∧ String.length t = (2 * length (Cluster.urandom env))%nat
    ∧ Cluster.coordinator c' = Some co
    ∧ ∀ req, Coordinator.arg_token req ≠ Some t →
        Coordinator.register req co = (Coordinator.R403, co, []).
Proof.
  intros Ha Hi Hk Hu c'. subst c'.
  destruct (start_inactive env aw c i k Ha Hi Hk) as [_ Ec]. cbv zeta in Ec.
  rewrite Ec. clear Ec. simpl.
  set (co0 := Coordinator.set_port _ _).
  exists (Cluster.hexlify (Cluster.urandom env)),
    (Cluster.barrier aw (Cluster.arrivals env) co0).1.2.
  split_and!; [done|apply hexlify_length|done|].
  assert (Coordinator.token (Cluster.barrier aw (Cluster.arrivals env) co0).1.2
          = Some (Cluster.hexlify (Cluster.urandom env))) as Ht.
  { destruct aw; [|by rewrite barrier_false].
    destruct (barrier_spec (Cluster.arrivals env) co0) as ((n & _ & E) & _).
    cbv zeta in E. rewrite E.
    by destruct (serve_shape (concat (take n (Cluster.arrivals env))) co0)
      as (h & f & ->). }
  intros req Hreq. unfold Coordinator.register, Coordinator.token_mismatch.
  rewrite Ht, hexlify_truthy by done.
  rewrite bool_decide_eq_false_2; [done|]. congruence.
Qed.

Lemma started_cluster_enforces_token_witness :
  let env := Cluster.World [222; 173; 190; 239; 0; 1; 2; 3; 4; 5] "driver" 5000 [] in
  let c := Cluster.init (Cluster.Conf (Some 2) (Some 4)) (Cluster.Rdd 3 17)
             None false false in
  ∃ t co, Cluster.token (Cluster.start env false c).1.2 = Some t
          ∧ String.length t = 20%nat
          ∧ Cluster.coordinator (Cluster.start env false c).1.2 = Some co.
Proof.
  intros env c.
  destruct (started_cluster_enforces_token env false c 2 4 eq_refl eq_refl eq_refl)
    as (t & co & Ht & Hl & Hco & _); [discriminate|].
  exists t, co. split_and!; [exact Ht|exact Hl|exact Hco].
Defined.

(** X20.  [stop] on a cluster whose coordinator has its port: whatever the
    partition servers answer, the last thing done is the post to the
    coordinator's own shutdown route, without a token.  If a response comes
    back the call returns and the cluster is not active any more; if the
    post raises, the exception leaves [stop] and the active flag is as it
    was.  In both cases the registry has been emptied already, so
    [get_hosts] answers the empty dict. *)
Theorem stop_outcomes
    (net : Z → string → post_result) (order : list Z)
    (reply : string → post_result) (c : Cluster.t) (co : Coordinator.t) (p : Z) :
  Cluster.coordinator c = Some co →
  Coordinator.port co = Some p →
  let url := "http://0.0.0.0:" +:+ fmt_d p +:+ "/control/shutdown" in
  let r := (Cluster.stop net order reply c).1.1 in
  let c' := (Cluster.stop net order reply c).1.2 in
  let out := (Cluster.stop net order reply c).2 in
  last out = Some (Cluster.Coord (Coordinator.Post url))
  ∧ Cluster.get_hosts c' = Some ∅
  ∧ Cluster.token c' = Cluster.token c
  ∧ (∀ code, reply url = Responded code →
       r = Returned () ∧ Cluster.is_active c' = false)
  ∧ (∀ e, reply url = Unreachable e →
       r = Raised e ∧ Cluster.is_active c' = Cluster.is_active c).
Proof.
  intros Hco Hp url r c' out. subst r c' out.
  unfold Cluster.stop. rewrite Hco.
  destruct (Coordinator.shutdown_hosts net order co) as [co1 out1] eqn:Esh.
  assert (Coordinator.port co1 = Some p ∧ Coordinator.hosts co1 = ∅) as [Hp1 Hh1].
  { unfold Coordinator.shutdown_hosts in Esh.
    destruct (Coordinator.run_threads net order co) as [s1 o1] eqn:Er.
    injection Esh as <- _. simpl. split; [|done].
    clear -Er Hp. revert co s1 o1 Er Hp.
    induction order as [|x order IH]; intros co s1 o1 Er Hp; simpl in Er.
    - by injection Er as <- _.
    - destruct (shutdown_host_frame (net x) x co) as ((h & E & _) & _).
      destruct (Coordinator.shutdown_host (net x) x co) as [[r s2] o2].
      simpl in E. subst s2.
      destruct (Coordinator.run_threads net order _) as [s3 o3] eqn:E3.
      injection Er as <- _. by apply (IH _ _ _ E3). }
  unfold Coordinator.shutdown. rewrite Hp1. fold url.
  destruct (reply url) as [code|e]; simpl.
  - split_and!.
    + by rewrite fmap_app, last_app.
    + unfold Cluster.get_hosts. simpl. by rewrite Hh1.
    + done.
    + done.
    + done.
  - split_and!.
    + by rewrite fmap_app, last_app.
    + unfold Cluster.get_hosts. simpl. by rewrite Hh1.
    + done.
    + done.
    + by intros ? [= <-].
Qed.

Lemma stop_outcomes_witness :
  let reg := λ p, Coordinator.Request (Some "deadbeef000102030405")
                    (Some (Json.Registration p "worker" (9000 + p))) in
  let env := Cluster.World [222; 173; 190; 239; 0; 1; 2; 3; 4; 5] "driver" 5000
               [[reg 0]; [reg 1]] in
  let c := (Cluster.start env true
              (Cluster.init (Cluster.Conf (Some 2) (Some 4)) (Cluster.Rdd 2 17)
                 None false false)).1.2 in
  let down := λ _ : string, Unreachable ConnectionError in
  Cluster.is_active (Cluster.stop (λ _ _, Responded 200) [0; 1] down c).1.2 = true
  ∧ Cluster.get_hosts (Cluster.stop (λ _ _, Responded 200) [0; 1] down c).1.2 = Some ∅.
Proof.
  intros reg env c down.
  destruct (Cluster.coordinator c) as [co|] eqn:Eco; [|discriminate Eco].
  pose proof (stop_outcomes (λ _ _, Responded 200) [0; 1] down c co 5000 Eco) as H.
  assert (Coordinator.port co = Some 5000) as Hp.
  { vm_compute in Eco. injection Eco as <-. reflexivity. }
  destruct (H Hp) as (_ & Hg & _ & _ & Hdown).
  split; [|exact Hg].
  destruct (Hdown ConnectionError eq_refl) as [_ ->]. reflexivity.
Defined.

(** [start] with an executor setting missing, for use below. *)
Lemma start_fails_or_not (env : Cluster.world) (aw : bool) (c : Cluster.t) :
  Cluster.is_active c = false →
  Cluster.executor_instances (Cluster.sc c) = None
  ∨ Cluster.executor_cores (Cluster.sc c) = None →
  (Cluster.start env aw c).1.2
  = Cluster.set_token (Some (Cluster.hexlify (Cluster.urandom env))) c
  ∧ (Cluster.start env aw c).1.1 = Raised TypeError.
Proof.
  intros Ha Hc. unfold Cluster.start. rewrite Ha. simpl.
  destruct (Cluster.executor_instances (Cluster.sc c)) as [i|],
    (Cluster.executor_cores (Cluster.sc c)) as [k|]; simpl;
    try done; by destruct Hc.
Qed.

Section Reachable.
Implicit Types (c : Cluster.t) (co : Coordinator.t).

Lemma run_threads_shape (net : Z → string → post_result) (order : list Z) co :
  ∃ h, (Coordinator.run_threads net order co).1 = Coordinator.set_hosts h co.
Proof.
  revert co. induction order as [|x order IH]; intros co; simpl.
  - exists (Coordinator.hosts co). by destruct co.
  - destruct (shutdown_host_frame (net x) x co) as ((h & E & _) & _).
    destruct (Coordinator.shutdown_host (net x) x co) as [[r s2] o2].
    simpl in E. subst s2. destruct (IH (Coordinator.set_hosts h co)) as (h' & E').
    destruct (Coordinator.run_threads net order _) as [s3 o3]. simpl in *.
    subst s3. by exists h'.
Qed.

Lemma shutdown_hosts_shape (net : Z → string → post_result) (order : list Z) co :
  ∃ h f, (Coordinator.shutdown_hosts net order co).1
         = Coordinator.set_full_cluster f (Coordinator.set_hosts h co).
Proof.
  unfold Coordinator.shutdown_hosts.
  destruct (run_threads_shape net order co) as (h & E).
  destruct (Coordinator.run_threads net order co) as [s1 o1]. simpl in *. subst s1.
  by eexists _, _.
Qed.

Lemma barrier_shape (aw : bool) (arr : list (list Coordinator.request)) co :
  ∃ h f, (Cluster.barrier aw arr co).1.2
         = Coordinator.set_full_cluster f (Coordinator.set_hosts h co).
Proof.
  destruct aw.
  - destruct (barrier_spec arr co) as ((n & _ & E) & _). cbv zeta in E. rewrite E.
    apply serve_shape.
  - rewrite barrier_false. simpl.
    exists (Coordinator.hosts co), (Coordinator.full_cluster co). by destruct co.
Qed.

(** What [stop] ends with when the coordinator is there and has its port. *)
Lemma stop_result (net : Z → string → post_result) (order : list Z)
    (reply : string → post_result) c co (p : Z) :
  Cluster.coordinator c = Some co →
  Coordinator.port co = Some p →
  (Cluster.stop net order reply c).1.1
  = match reply ("http://0.0.0.0:" +:+ fmt_d p +:+ "/control/shutdown") with
    | Responded _ => Returned ()
    | Unreachable e => Raised e
    end.
Proof.
  intros Hco Hp. unfold Cluster.stop. rewrite Hco.
  destruct (shutdown_hosts_shape net order co) as (h & f & E).
  destruct (Coordinator.shutdown_hosts net order co) as [co1 out1]. simpl in E.
  subst co1. unfold Coordinator.shutdown. simpl. rewrite Hp.
  by destruct (reply _).
Qed.

(** What holds of a cluster that is active. *)
Lemma active_invariant (conf : Cluster.conf_t) (r : Cluster.rdd_t)
    (ps : option PartitionServer.t) (cache verb : bool) (acts : list Cluster.action) :
  let c := Cluster.run acts (Cluster.init conf r ps cache verb) in
  Cluster.cache_result c = cache
  ∧ (Cluster.is_active c = true →
     ∃ co p, Cluster.coordinator c = Some co
       ∧ Coordinator.port co = Some p
       ∧ Coordinator.token co = Cluster.token c
       ∧ PartitionServer.token (Cluster.partition_server c) = Cluster.token c
       ∧ PartitionServer.coordinator_url (Cluster.partition_server c)
         = Coordinator.get_url co
       ∧ Cluster.map_job c ≠ None).
Proof.
  induction acts as [|a acts IH] using rev_ind; [done|].
  unfold Cluster.run in *. rewrite foldl_snoc.
  set (c := foldl _ _ acts) in *. clearbody c. cbv zeta in IH.
  destruct IH as [Hc Hact]. destruct a as [env aw|net order reply|reqs]; simpl.
  - destruct (Cluster.is_active c) eqn:Ha.
    { assert (Cluster.start env aw c = (Returned (), c, [])) as ->.
      { unfold Cluster.start. by rewrite Ha. }
      simpl. split; [done|]. intros _. by apply Hact. }
    destruct (Cluster.executor_instances (Cluster.sc c)) as [i|] eqn:Hi.
    2:{ destruct (start_fails_or_not env aw c Ha (or_introl Hi)) as [-> ?].
        split; [done|]. unfold Cluster.is_active in *. simpl. congruence. }
    destruct (Cluster.executor_cores (Cluster.sc c)) as [k|] eqn:Hk.
    2:{ destruct (start_fails_or_not env aw c Ha (or_intror Hk)) as [-> ?].
        split; [done|]. unfold Cluster.is_active in *. simpl. congruence. }
    destruct (start_inactive env aw c i k Ha Hi Hk) as [_ Ec]. cbv zeta in Ec.
    rewrite Ec. simpl. split; [done|]. intros _.
    set (co0 := Coordinator.set_port _ _).
    destruct (barrier_shape aw (Cluster.arrivals env) co0) as (h & f & ->).
    eexists _, _. by split_and!.
  - unfold Cluster.stop. destruct (Cluster.coordinator c) as [co|] eqn:Eco.
    2:{ simpl. split; [done|]. intros H. destruct (Hact H) as (? & ? & ? & _).
        congruence. }
    destruct (shutdown_hosts_shape net order co) as (h & f & E).
    destruct (Coordinator.shutdown_hosts net order co) as [co1 out1]. simpl in E.
    subst co1.
    destruct (Coordinator.shutdown reply _) as [[[]|e|] out2]; simpl;
      (split; [done|]); try done.
    + intros H. destruct (Hact H) as (co' & p & Hco' & Hp & Ht & Hpt & Hu & Hm).
      injection Hco' as <-. eexists _, _. by split_and!.
    + intros H. destruct (Hact H) as (co' & p & Hco' & Hp & Ht & Hpt & Hu & Hm).
      injection Hco' as <-. eexists _, _. by split_and!.
  - destruct (Cluster.coordinator c) as [co|] eqn:Eco; simpl.
    2:{ split; [done|]. intros H. destruct (Hact H) as (? & ? & ? & _). congruence. }
    split; [done|]. intros H.
    destruct (Hact H) as (co' & p & Hco' & Hp & Ht & Hpt & Hu & Hm).
    injection Hco' as <-.
    destruct (serve_shape reqs co) as (h & f & ->).
    eexists _, _. by split_and!.
Qed.

End Reachable.

(** X21.  Whatever calls of [start] and [stop] were made on a cluster since
    [__init__], and whatever requests its coordinator served in between: if
    the cluster is active, it has a coordinator which has its port and the
    cluster's token, its partition server holds the same token and the
    coordinator's url, and [stop] ends as the post to the coordinator's own
    shutdown route does: it returns if a response comes back and otherwise
    raises what the post raised, never an error for a missing
    coordinator or port. *)
Theorem active_cluster_has_coordinator
    (conf : Cluster.conf_t) (r : Cluster.rdd_t) (ps : option PartitionServer.t)
    (cache verb : bool) (acts : list Cluster.action) :
  let c := Cluster.run acts (Cluster.init conf r ps cache verb) in
  Cluster.is_active c = true →
  ∃ co p, Cluster.coordinator c = Some co
    ∧ Coordinator.port co = Some p
    ∧ Coordinator.token co = Cluster.token c
    ∧ PartitionServer.token (Cluster.partition_server c) = Cluster.token c
    ∧ PartitionServer.coordinator_url (Cluster.partition_server c)
      = Coordinator.get_url co
    ∧ ∀ net order reply,
        (Cluster.stop net order reply c).1.1
        = match reply ("http://0.0.0.0:" +:+ fmt_d p +:+ "/control/shutdown") with
          | Responded _ => Returned ()
          | Unreachable e => Raised e
          end.
Proof.
  intros c Ha.
  destruct (active_invariant conf r ps cache verb acts) as [_ H].
  destruct (H Ha) as (co & p & Hco & Hp & Ht & Hpt & Hu & _).
  exists co, p. split_and!; try done.
  intros net order reply. by apply stop_result with co.
Qed.

Lemma active_cluster_has_coordinator_witness :
  let env := Cluster.World [222; 173; 190; 239; 0; 1; 2; 3; 4; 5] "driver" 5000 [] in
  let reg := Coordinator.Request (Some "deadbeef000102030405")
               (Some (Json.Registration 0 "worker" 9000)) in
  let c := Cluster.run
             [Cluster.Start env false; Cluster.Registrations [reg];
              Cluster.Stop (λ _ _, Responded 200) [0] (λ _, Responded 200);
              Cluster.Start env false]
             (Cluster.init (Cluster.Conf (Some 2) (Some 4)) (Cluster.Rdd 3 17)
                None false false) in
  ∃ co p, Cluster.coordinator c = Some co ∧ Coordinator.port co = Some p.
Proof.
  intros env reg c.
  destruct (active_cluster_has_coordinator
              (Cluster.Conf (Some 2) (Some 4)) (Cluster.Rdd 3 17) None false false
              [Cluster.Start env false; Cluster.Registrations [reg];
               Cluster.Stop (λ _ _, Responded 200) [0] (λ _, Responded 200);
               Cluster.Start env false] eq_refl)
    as (co & p & Hco & Hp & _).
  exists co, p. split; [exact Hco|exact Hp].
Defined.

(** X22.  [get_result_rdd] on a cluster made with [cache_result=True]
    raises [AttributeError] as long as [start] has not been called, because
    [map_job] does not exist yet; made with [cache_result=False] it answers
    [None] whatever happened since; and on any active cluster it returns,
    with the result of the map job when [cache_result] is set. *)
Theorem get_result_rdd_needs_a_started_cluster
    (conf : Cluster.conf_t) (r : Cluster.rdd_t) (ps : option PartitionServer.t)
    (cache verb : bool) (acts : list Cluster.action) (result : option Z) :
  let c := Cluster.run acts (Cluster.init conf r ps cache verb) in
  Cluster.get_result_rdd result (Cluster.init conf r ps true verb)
    = Raised AttributeError
  ∧ (cache = false → Cluster.get_result_rdd result c = Returned None)
  ∧ (Cluster.is_active c = true →
     Cluster.get_result_rdd result c = Returned (if cache then result else None)).
Proof.
  intros c.
  destruct (active_invariant conf r ps cache verb acts) as [Hc H].
  fold c in Hc, H. split_and!.
  - done.
  - intros ->. unfold Cluster.get_result_rdd. by rewrite Hc.
  - intros Ha. destruct (H Ha) as (co & p & _ & _ & _ & _ & _ & Hm).
    unfold Cluster.get_result_rdd. rewrite Hc.
    destruct cache; [|done]. by destruct (Cluster.map_job c).
Qed.

(** X23.  The [/control/shutdown] route that ServerThread gives the
    coordinator has no token test, unlike that of a partition server: a
    request that does not present the configured token is answered 403 by
    the partition server, which goes on serving, and stops the
    coordinator. *)
Theorem coordinator_shutdown_route_is_open
    (req : Control.request) (s : Coordinator.t) (w : PartitionServer.t)
    (tok : option string) :
  Coordinator.token s = tok →
  PartitionServer.token w = tok →
  truthy_str tok = true →
  tok ≠ Control.arg_token req →
  Control.werkzeug req = true →
  PartitionServer.shutdown_server req w = (Returned (Control.Status 403), [])
  ∧ Coordinator.shutdown_server req s
    = (Returned (Control.Text "Server shutting down..."), [Control.StopServer]).
Proof.
  intros _ Hw Ht Hne Hwz. split.
  - unfold PartitionServer.shutdown_server. rewrite Hw, Ht.
    by rewrite bool_decide_eq_false_2.
  - unfold Coordinator.shutdown_server. by rewrite Hwz.
Qed.

Lemma coordinator_shutdown_route_is_open_witness :
  Coordinator.shutdown_server (Control.Request None true)
    (Coordinator.init "driver" (Some 2) false (Some "abc"))
  = (Returned (Control.Text "Server shutting down..."), [Control.StopServer]).
Proof.
  apply (coordinator_shutdown_route_is_open (Control.Request None true)
           (Coordinator.init "driver" (Some 2) false (Some "abc"))
           (PartitionServer.set_token (Some "abc")
              (PartitionServer.init PartitionServer.Flask None false None None))
           (Some "abc")); try reflexivity. discriminate.
Defined.

(** Every post a partition server makes goes to [/register] under the
    coordinator url it holds, with its token if it has one, and carries the
    partition, the host and the port of the call. *)
Lemma call_posts (env : PartitionServer.world) (ind : Z) (w : PartitionServer.t)
    (u : string) (js : Json.registration) :
  PartitionServer.Post u js ∈ (PartitionServer.__call__ env ind w).2 →
  ∃ base, PartitionServer.coordinator_url w = Some base
    ∧ u = with_token (base +:+ "/register") (PartitionServer.token w)
    ∧ js = {| Json.partition := ind;
              Json.host := PartitionServer.get_host env;
              Json.port := default (PartitionServer.get_open_port env)
                                   (PartitionServer.port w) |}.
Proof.
  unfold PartitionServer.__call__, PartitionServer._launch_server,
    PartitionServer._init_partition, PartitionServer._register.
  destruct w as [cls port tok curl pind host bp fn meth cb]. simpl.
  destruct cls; simpl; [by intros ?%elem_of_nil|].
  destruct fn as [[e|]|]; [| |destruct meth as [[e|]|]; [destruct e| |]]; simpl;
  destruct bp; simpl; destruct curl as [base|]; simpl.
  all: try match goal with
           | |- context [PartitionServer.post ?en ?a ?b] =>
             destruct (PartitionServer.post en a b) as [status|e'] eqn:Ep; simpl
           end.
  all: try match goal with
           | |- context [PartitionServer.app_run ?en] =>
             destruct (PartitionServer.app_run en); simpl
           end.
  all: intros H;
    repeat (apply elem_of_cons in H as [H|H];
            [first [discriminate H
                   | injection H as -> ->; by eexists]|]);
    by apply elem_of_nil in H.
Qed.

(** X24.  A partition server shipped by a cluster that [start] has just
    started registers where and how its coordinator expects: every post it
    makes goes to the coordinator's url followed by [/register] and by the
    cluster's token as [token] parameter, and the coordinator answers a
    request with that token and that body with 200 and then holds the
    worker's host and port under its partition index. *)
Theorem shipped_worker_registers_with_its_coordinator
    (env : Cluster.world) (c : Cluster.t) (i k : Z)
    (wenv : PartitionServer.world) (ind : Z) :
  Cluster.is_active c = false →
  Cluster.executor_instances (Cluster.sc c) = Some i →
  Cluster.executor_cores (Cluster.sc c) = Some k →
  Cluster.urandom env ≠ [] →
  let c' := (Cluster.start env false c).1.2 in
  let t := Cluster.hexlify (Cluster.urandom env) in
  ∃ co, Cluster.coordinator c' = Some co
    ∧ ∀ u js,
        PartitionServer.Post u js
          ∈ (PartitionServer.__call__ wenv ind (Cluster.partition_server c')).2 →
        u = http_url (Cluster.get_host env) (Cluster.get_open_port env)
              +:+ "/register?token=" +:+ t
        ∧ Json.partition js = ind
        ∧ (Coordinator.register (Coordinator.Request (Some t) (Some js)) co).1.1
          = Coordinator.R200
        ∧ Coordinator.hosts
            (Coordinator.register (Coordinator.Request (Some t) (Some js)) co).1.2
            !! ind
          = Some (PartitionServer.get_host wenv, Json.port js).
Proof.
  intros Ha Hi Hk Hu c' t. subst c'.
  destruct (start_inactive env false c i k Ha Hi Hk) as [_ Ec]. cbv zeta in Ec.
  rewrite Ec. clear Ec. rewrite barrier_false. simpl.
  eexists. split; [done|]. intros u js Hin.
  apply call_posts in Hin as (base & Hbase & -> & ->). simpl in Hbase.
  injection Hbase as <-. fold t. split_and!.
  - change (PartitionServer.token _) with (Some t).
    unfold with_token. subst t. rewrite (hexlify_truthy _ Hu).
    rewrite append_assoc. reflexivity.
  - done.
  - unfold Coordinator.register, Coordinator.token_mismatch. simpl. fold t.
    by rewrite bool_decide_eq_true_2, andb_false_r.
  - unfold Coordinator.register, Coordinator.token_mismatch. simpl. fold t.
    rewrite bool_decide_eq_true_2, andb_false_r by done. simpl.
    destruct (bool_decide _); simpl; apply lookup_insert_eq.
Qed.

Lemma shipped_worker_registers_with_its_coordinator_witness :
  let env := Cluster.World [222; 173; 190; 239; 0; 1; 2; 3; 4; 5] "driver" 5000 [] in
  let c := Cluster.init (Cluster.Conf (Some 2) (Some 4)) (Cluster.Rdd 3 17)
             None false false in
  ∃ co, Cluster.coordinator (Cluster.start env false c).1.2 = Some co.
Proof.
  intros env c.
  destruct (shipped_worker_registers_with_its_coordinator env c 2 4
              (PartitionServer.World "worker" 9000 (λ _ _, Responded 200) None) 1
              eq_refl eq_refl eq_refl) as (co & Hco & _); [discriminate|].
  exists co. exact Hco.
Defined.
